(** * A Wikipedia crawler: URL classifier, content extractor, link collector,
      crawl controller and report writer of [main.py], embedded in Rocq.

    Python strings are [string]s holding their UTF-8 encoding, Python
    integers are [Z], the [visited] set is a [gset string], the
    insertion-ordered [results] dictionary is an association list with
    in-place update, and the parsed HTML document is a tree of elements and
    string nodes.  The network, the clock and standard output are threaded
    explicitly through a [process] record. *)

From Stdlib Require Import ZArith Ascii String List Lia Bool.
From stdpp Require Import base decidable list gmap strings.

Import ListNotations.
Set Warnings "-register-all".
Local Open Scope string_scope.
Local Open Scope Z_scope.

(* ===================================================================== *)
(** * Python string primitives *)
(* ===================================================================== *)

Module PyStr.

(** [s.startswith(p)]. *)
Fixpoint startswith (p s : string) : bool :=
  match p with
  | EmptyString => true
  | String a p' =>
      match s with
      | EmptyString => false
      | String b s' => Ascii.eqb a b && startswith p' s'
      end
  end.

(** [re.search(pat, s)] for a pattern [pat] made of literal characters
    only: the pattern is tried at every position of [s], leftmost first. *)
Fixpoint re_search (pat s : string) : bool :=
  startswith pat s ||
  match s with
  | EmptyString => false
  | String _ s' => re_search pat s'
  end.

(** A Python [str] is held as its UTF-8 encoding, one [ascii] for each
    byte.  The whitespace of [str.strip] and [str.isspace] is, by code
    point: U+0009 to U+000D, U+001C to U+0020, U+0085, U+00A0, U+1680,
    U+2000 to U+200A, U+2028, U+2029, U+202F, U+205F and U+3000. *)

(** The whitespace characters of one byte: U+0009 to U+000D and U+001C to
    U+0020. *)
Definition isspace1 (c : ascii) : bool :=
  let n := nat_of_ascii c in
  ((9 <=? n)%nat && (n <=? 13)%nat) || ((28 <=? n)%nat && (n <=? 32)%nat).

(** The whitespace characters of two bytes: U+0085 ([C2 85]) and U+00A0
    ([C2 A0]). *)
Definition isspace2 (c1 c2 : ascii) : bool :=
  let n1 := nat_of_ascii c1 in
  let n2 := nat_of_ascii c2 in
  (n1 =? 194)%nat && ((n2 =? 133)%nat || (n2 =? 160)%nat).

(** The whitespace characters of three bytes: U+1680 ([E1 9A 80]), U+2000
    to U+200A ([E2 80 80] to [E2 80 8A]), U+2028 and U+2029 ([E2 80 A8],
    [E2 80 A9]), U+202F ([E2 80 AF]), U+205F ([E2 81 9F]) and U+3000
    ([E3 80 80]). *)
Definition isspace3 (c1 c2 c3 : ascii) : bool :=
  let n1 := nat_of_ascii c1 in
  let n2 := nat_of_ascii c2 in
  let n3 := nat_of_ascii c3 in
  ((n1 =? 225)%nat && (n2 =? 154)%nat && (n3 =? 128)%nat)
  || ((n1 =? 226)%nat && (n2 =? 128)%nat
      && (((128 <=? n3)%nat && (n3 <=? 138)%nat)
          || (n3 =? 168)%nat || (n3 =? 169)%nat || (n3 =? 175)%nat))
  || ((n1 =? 226)%nat && (n2 =? 129)%nat && (n3 =? 159)%nat)
  || ((n1 =? 227)%nat && (n2 =? 128)%nat && (n3 =? 128)%nat).

(** [s.lstrip()]: the whitespace characters at the start are dropped, be
    they of one, two or three bytes. *)
Fixpoint lstrip (s : string) : string :=
  match s with
  | EmptyString => s
  | String c1 s1 =>
      if isspace1 c1 then lstrip s1
      else
        match s1 with
        | EmptyString => s
        | String c2 s2 =>
            if isspace2 c1 c2 then lstrip s2
            else
              match s2 with
              | EmptyString => s
              | String c3 s3 => if isspace3 c1 c2 c3 then lstrip s3 else s
              end
        end
  end.

(** The string holds whitespace characters only (or nothing). *)
Definition all_space (s : string) : bool :=
  match lstrip s with
  | EmptyString => true
  | String _ _ => false
  end.

(** [s.rstrip()]: the longest end of [s] made of whitespace characters is
    dropped. *)
Fixpoint rstrip (s : string) : string :=
  match s with
  | EmptyString => EmptyString
  | String c s' =>
      if all_space (String c s') then EmptyString else String c (rstrip s')
  end.

(** [s.strip()]. *)
Definition strip (s : string) : string := rstrip (lstrip s).

(** [''.join(l)]. *)
Fixpoint concat (l : list string) : string :=
  match l with
  | [] => EmptyString
  | s :: l' => s +:+ concat l'
  end.

(** [sep.join(l)]. *)
Fixpoint join (sep : string) (l : list string) : string :=
  match l with
  | [] => EmptyString
  | [s] => s
  | s :: l' => s +:+ sep +:+ join sep l'
  end.

(** Truth value of a string: non-empty. *)
Definition truthy (s : string) : bool :=
  match s with EmptyString => false | String _ _ => true end.

(** [c * n]: the string [c] repeated [n] times. *)
Fixpoint repeat (c : string) (n : nat) : string :=
  match n with
  | O => EmptyString
  | S n' => c +:+ repeat c n'
  end.

End PyStr.

(* ===================================================================== *)
(** * URL classifier *)
(* ===================================================================== *)

(** The patterns of [exclude_patterns], in source order.  None of them
    contains a regular-expression metacharacter. *)
Definition exclude_patterns : list string :=
  [ "/wiki/Special:"; "/wiki/Help:"; "/wiki/Wikipedia:"; "/wiki/Portal:";
    "/wiki/Category:"; "/wiki/Template:"; "/wiki/File:"; "/wiki/Talk:";
    "/wiki/User:"; "/wiki/Main_Page" ].

(** [is_valid_article(url)]: the [for] loop returns [False] at the first
    pattern found in [url], and [True] when the loop falls through. *)
Fixpoint is_valid_article_loop (patterns : list string) (url : string) : bool :=
  match patterns with
  | [] => true
  | pattern :: rest =>
      if PyStr.re_search pattern url then false
      else is_valid_article_loop rest url
  end.

Definition is_valid_article (url : string) : bool :=
  is_valid_article_loop exclude_patterns url.

(** The classifier as the specification words it: the nine namespace
    prefixes, tested at the start of the href, and the main page, tested
    by equality. *)
Definition namespace_prefixes : list string :=
  [ "/wiki/Special:"; "/wiki/Help:"; "/wiki/Wikipedia:"; "/wiki/Portal:";
    "/wiki/Category:"; "/wiki/Template:"; "/wiki/File:"; "/wiki/Talk:";
    "/wiki/User:" ].

Definition main_page : string := "/wiki/Main_Page".

Definition spec_is_article (href : string) : bool :=
  negb (existsb (fun p => PyStr.startswith p href) namespace_prefixes
        || String.eqb href main_page).

(* ===================================================================== *)
(** * Parsed documents *)
(* ===================================================================== *)

(** The classes of strings other than [NavigableString] itself that the
    parser puts in the tree: comments and the like, and the strings it
    finds in a [script], [style], [template], [rt] or [rp] tag. *)
Inductive string_class : Type :=
| Comment
| CData
| Declaration
| Doctype
| ProcessingInstruction
| Script
| Stylesheet
| TemplateString
| RubyTextString
| RubyParenthesisString.

Global Instance string_class_eq_dec : EqDecision string_class.
Proof. solve_decision. Defined.

(** A node of the tree built by the HTML parser.  A [Text] node is a
    [NavigableString] proper and a [Special] node a string of another
    class; the [name] of both is [None].  An [Element] is a [Tag] with its
    name, its single-valued attributes, the value list of its [class]
    attribute, and its children in document order. *)
Inductive node : Type :=
| Text (s : string)
| Special (cls : string_class) (s : string)
| Element (name : string) (attrs : gmap string string)
          (classes : list string) (children : list node).

Module Dom.

(** [element.name], [None] for a text node. *)
Definition name (n : node) : option string :=
  match n with
  | Text _ | Special _ _ => None
  | Element nm _ _ _ => Some nm
  end.

(** [element.name is not None]: the node is a tag, not a string. *)
Definition is_tag (n : node) : bool :=
  match name n with
  | None => false
  | Some _ => true
  end.

(** [element.name in names]. *)
Definition name_in (names : list string) (n : node) : bool :=
  match name n with
  | None => false
  | Some nm => existsb (String.eqb nm) names
  end.

(** [element.name == nm]. *)
Definition name_is (nm : string) (n : node) : bool := name_in [nm] n.

(** [tag.children]. *)
Definition children (n : node) : list node :=
  match n with
  | Text _ | Special _ _ => []
  | Element _ _ _ ch => ch
  end.

(** [tag.get(key)]. *)
Definition attr (key : string) (n : node) : option string :=
  match n with
  | Text _ | Special _ _ => None
  | Element _ attrs _ _ => attrs !! key
  end.

(** The value list of the [class] attribute. *)
Definition classes (n : node) : list string :=
  match n with
  | Text _ | Special _ _ => []
  | Element _ _ cl _ => cl
  end.

(** The node and everything below it, in document order. *)
Fixpoint self_and_descendants (n : node) : list node :=
  n :: match n with
       | Text _ | Special _ _ => []
       | Element _ _ _ ch =>
           (fix over (l : list node) : list node :=
              match l with
              | [] => []
              | c :: l' => (self_and_descendants c ++ over l')%list
              end) ch
       end.

(** [tag.descendants]. *)
Definition descendants (n : node) : list node :=
  List.tail (self_and_descendants n).

(** The descendants of the [BeautifulSoup] object, given by its children. *)
Definition soup_descendants (soup : list node) : list node :=
  flat_map self_and_descendants soup.

(** The class the parser gives the strings it finds in a tag of this
    name, when it is not [NavigableString]. *)
Definition string_container (nm : string) : option string_class :=
  if String.eqb nm "script" then Some Script
  else if String.eqb nm "style" then Some Stylesheet
  else if String.eqb nm "template" then Some TemplateString
  else if String.eqb nm "rt" then Some RubyTextString
  else if String.eqb nm "rp" then Some RubyParenthesisString
  else None.

(** The strings at or below [n] that [get_text] takes, in document order,
    for a tag that looks for the class [want] ([None]: the plain strings
    and the [CData] sections).  [scope] is the class of the nearest
    [script], [style], [template], [rt] or [rp] tag around the node: a
    [Text] in such a tag counts as a string of that class, which is the
    class the parser gives it. *)
Fixpoint strings_in (want scope : option string_class) (n : node)
  : list string :=
  match n with
  | Text s => if bool_decide (want = scope) then [s] else []
  | Special cls s =>
      match want with
      | None => if bool_decide (cls = CData) then [s] else []
      | Some c => if bool_decide (cls = c) then [s] else []
      end
  | Element nm _ _ ch =>
      let scope' := match string_container nm with
                    | Some c => Some c
                    | None => scope
                    end in
      (fix over (l : list node) : list string :=
         match l with
         | [] => []
         | c :: l' => (strings_in want scope' c ++ over l')%list
         end) ch
  end.

(** The strings of [tag._all_strings()]: those of the classes the tag
    looks for, which are its own class for a [script], [style],
    [template], [rt] or [rp] tag, and [NavigableString] and [CData] for any
    other tag.  Strings of another class lying below, such as the text of
    a [script] or [style] tag in a paragraph, or a comment, are left
    out. *)
Definition strings (n : node) : list string :=
  match n with
  | Text s | Special _ s => [s]
  | Element nm _ _ _ =>
      strings_in (string_container nm) None n
  end.

(** [tag.get_text(strip=strip)]: the strings joined with no separator;
    with [strip], each string is stripped and dropped when that leaves
    nothing. *)
Definition get_text (strip : bool) (n : node) : string :=
  if strip
  then PyStr.concat (List.filter PyStr.truthy (List.map PyStr.strip (strings n)))
  else PyStr.concat (strings n).

(** [soup.find(nm, {'id': v})]. *)
Definition find_by_id (nm v : string) (soup : list node) : option node :=
  List.find (fun n => name_is nm n &&
                      match attr "id" n with
                      | Some i => String.eqb i v
                      | None => false
                      end)
            (soup_descendants soup).

(** [soup.find(nm, {'class': c})]: the class list must contain [c]. *)
Definition find_by_class (nm c : string) (soup : list node) : option node :=
  List.find (fun n => name_is nm n && existsb (String.eqb c) (classes n))
            (soup_descendants soup).

(** [tag.find_all(nm)]. *)
Definition find_all (nm : string) (n : node) : list node :=
  List.filter (name_is nm) (descendants n).

(** [soup.find_all(nm, href=re.compile('^' + pre))]: the tags named [nm]
    that have an [href] starting with [pre]. *)
Definition find_all_href (nm pre : string) (soup : list node) : list node :=
  List.filter (fun n => name_is nm n &&
                        match attr "href" n with
                        | Some h => PyStr.startswith pre h
                        | None => false
                        end)
              (soup_descendants soup).

End Dom.

(* ===================================================================== *)
(** * Processes: network, clock, standard output, exceptions *)
(* ===================================================================== *)

(** The exceptions the program can meet. *)
Inductive exn : Type :=
| TimeoutError
| ConnectionError
| AttributeError
| KeyError
| OSError
| RecursionError.

(** What the network does with one [GET]: the two transport failures
    raise inside [requests.get]; any HTTP response, whatever its status,
    is handed back with its parsed body. *)
Inductive fetch_result : Type :=
| Timeout
| ConnectionFailed
| Response (status_code : Z) (soup : list node).

(** A behaviour of the network: the outcome of the [n]-th request of the
    run, for the URL requested. *)
Definition network : Type := nat -> string -> fetch_result.

(** The lines the program prints. *)
Inductive output : Type :=
| Prettified (content_div : node)
| ErrorExtracting (url : string) (e : exn)
| ErrorFetchingLinks (url : string) (e : exn)
| Crawling (current_url : string) (current_depth : Z) (total : Z)
| Saved (count : Z) (filename : string).

(** What the outside sees of a run. *)
Inductive event : Type :=
| Sleep
| Get (url : string)
| Print (line : output).

Record process : Type := mkProcess {
  requests : nat;                (* number of requests sent so far *)
  trace : list event;            (* events so far, oldest first *)
  files : gmap string string     (* contents of the files written *)
}.

Definition start : process := {| requests := 0; trace := []; files := ∅ |}.

Inductive result (A : Type) : Type :=
| Ok (a : A)
| Raise (e : exn).
Arguments Ok {A} a.
Arguments Raise {A} e.

(** Computations over a state [S] that return or raise. *)
Definition M (S A : Type) : Type := S -> result A * S.

Definition ret {S A} (a : A) : M S A := fun s => (Ok a, s).

Definition raise {S A} (e : exn) : M S A := fun s => (Raise e, s).

Definition bind {S A B} (c : M S A) (k : A -> M S B) : M S B :=
  fun s => match c s with
           | (Ok a, s') => k a s'
           | (Raise e, s') => (Raise e, s')
           end.

(** [try: c except Exception as e: h e]. *)
Definition try_except {S A} (c : M S A) (h : exn -> M S A) : M S A :=
  fun s => match c s with
           | (Ok a, s') => (Ok a, s')
           | (Raise e, s') => h e s'
           end.

Definition lift {S A} (r : result A) : M S A := fun s => (r, s).

(** The state, read. *)
Definition get_state {S} : M S S := fun s => (Ok s, s).

Declare Scope py_scope.
Delimit Scope py_scope with py.
Notation "x <- c ;; k" := (bind c (fun x => k))
  (at level 100, c at next level, right associativity) : py_scope.
Notation "c ;;; k" := (bind c (fun _ => k))
  (at level 100, right associativity) : py_scope.
Local Open Scope py_scope.

(** [for x in l: body x]. *)
Fixpoint for_each {S A} (l : list A) (body : A -> M S unit) : M S unit :=
  match l with
  | [] => ret tt
  | x :: l' => body x ;;; for_each l' body
  end.

Definition emit (e : event) : M process unit :=
  fun p => (Ok tt, {| requests := requests p;
                      trace := (trace p ++ [e])%list;
                      files := files p |}).

(** [print(...)]. *)
Definition print (line : output) : M process unit := emit (Print line).

(** [time.sleep(0.5)]. *)
Definition sleep : M process unit := emit Sleep.

(** [requests.get(url)], followed by the parse of [response.text]. *)
Definition requests_get (net : network) (url : string)
  : M process (Z * list node) :=
  fun p =>
    let p' := {| requests := S (requests p);
                 trace := (trace p ++ [Get url])%list;
                 files := files p |} in
    match net (requests p) url with
    | Timeout => (Raise TimeoutError, p')
    | ConnectionFailed => (Raise ConnectionError, p')
    | Response status soup => (Ok (status, soup), p')
    end.

(* ===================================================================== *)
(** * Content extractor *)
(* ===================================================================== *)

(** One entry of an article's ['content'] list. *)
Record sect : Type := mkSect {
  heading : string;
  content : list string
}.

(** The dictionary returned by [extract_article_content]. *)
Record article : Type := mkArticle {
  a_url : string;
  a_title : string;
  a_content : list sect
}.

Definition nl : string := String (Ascii.ascii_of_nat 10) EmptyString.

Definition heading_names : list string := ["h1"; "h2"; "h3"; "h4"; "h5"; "h6"].

Definition skipped_names : list string := ["script"; "style"; "table"; "figure"].

(** The nested function [extract_text(element)].  A string node has no
    [name], so it passes every test and reaches [element.children], which a
    [NavigableString] does not have: [AttributeError].  In the last branch
    the comprehension keeps the children whose [name] is not [None]. *)
Fixpoint extract_text (element : node) : result string :=
  match element with
  | Text _ | Special _ _ => Raise AttributeError
  | Element nm _ _ ch =>
      if existsb (String.eqb nm) skipped_names then Ok EmptyString
      else if String.eqb nm "p" then Ok (Dom.get_text true element)
      else if String.eqb nm "ul" then
        Ok (PyStr.join nl
              (List.map (fun li => "- " +:+ Dom.get_text true li)
                        (Dom.find_all "li" element)))
      else if existsb (String.eqb nm) heading_names then
        Ok (nl +:+ Dom.get_text true element +:+ nl)
      else
        match
          (fix over (l : list node) : result (list string) :=
             match l with
             | [] => Ok []
             | child :: l' =>
                 match child with
                 | Text _ | Special _ _ => over l'
                 | Element _ _ _ _ =>
                     match extract_text child with
                     | Raise e => Raise e
                     | Ok t =>
                         match over l' with
                         | Raise e => Raise e
                         | Ok ts => Ok (t :: ts)
                         end
                     end
                 end
             end) ch
        with
        | Raise e => Raise e
        | Ok ts => Ok (PyStr.concat ts)
        end
  end.

(** Truth value of a list: non-empty. *)
Definition nonempty {A} (l : list A) : bool :=
  match l with [] => false | _ :: _ => true end.

(** The loop over [content_div.children], on the three variables
    [content], [current_heading] and [current_content]. *)
Fixpoint sections_loop (elements : list node) (content : list sect)
    (current_heading : string) (current_content : list string)
  : result (list sect * string * list string) :=
  match elements with
  | [] => Ok (content, current_heading, current_content)
  | element :: rest =>
      if Dom.name_in heading_names element then
        if nonempty current_content then
          sections_loop rest
            (content ++ [mkSect current_heading current_content])%list
            (Dom.get_text true element) []
        else
          sections_loop rest content (Dom.get_text true element) current_content
      else
        match extract_text element with
        | Raise e => Raise e
        | Ok text =>
            if PyStr.truthy (PyStr.strip text) then
              sections_loop rest content current_heading
                            (current_content ++ [text])%list
            else
              sections_loop rest content current_heading current_content
        end
  end.

(** The body of the [try] block of [extract_article_content]. *)
Definition extract_article_content_body (net : network) (url : string)
  : M process (option article) :=
  sleep ;;;
  response <- requests_get net url ;;
  let soup := snd response in
  let title :=
    match Dom.find_by_id "h1" "firstHeading" soup with
    | Some t => PyStr.strip (Dom.get_text false t)
    | None => "No Title"
    end in
  match Dom.find_by_class "div" "mw-parser-output" soup with
  | None => ret None
  | Some content_div =>
      print (Prettified content_div) ;;;
      walked <- lift (sections_loop (Dom.children content_div) [] title []) ;;
      let '(content, current_heading, current_content) := walked in
      let content :=
        if nonempty current_content
        then (content ++ [mkSect current_heading current_content])%list
        else content in
      if nonempty content
      then ret (Some (mkArticle url title content))
      else ret None
  end.

(** [extract_article_content(url)]. *)
Definition extract_article_content (net : network) (url : string)
  : M process (option article) :=
  try_except (extract_article_content_body net url)
             (fun e => print (ErrorExtracting url e) ;;; ret None).

(* ===================================================================== *)
(** * Link collector *)
(* ===================================================================== *)

Definition base_origin : string := "https://zh.wikipedia.org".

(** The list comprehension of [get_all_links]: one absolute URL for each
    link whose href passes the classifier, in the order of [links]. *)
Fixpoint full_links (links : list node) : result (list string) :=
  match links with
  | [] => Ok []
  | link :: rest =>
      match Dom.attr "href" link with
      | None => Raise KeyError
      | Some href =>
          match full_links rest with
          | Raise e => Raise e
          | Ok l =>
              Ok (if is_valid_article href then (base_origin +:+ href) :: l
                  else l)
          end
      end
  end.

(** [get_all_links(url)]. *)
Definition get_all_links (net : network) (url : string)
  : M process (list string) :=
  try_except
    (response <- requests_get net url ;;
     let soup := snd response in
     let links := Dom.find_all_href "a" "/wiki/" soup in
     lift (full_links links))
    (fun e => print (ErrorFetchingLinks url e) ;;; ret []).

(* ===================================================================== *)
(** * Crawl controller *)
(* ===================================================================== *)

(** [results[key] = value] on an insertion-ordered dictionary: an existing
    key keeps its place, a new key goes last. *)
Fixpoint dict_set {V} (key : string) (value : V) (d : list (string * V))
  : list (string * V) :=
  match d with
  | [] => [(key, value)]
  | (k, v) :: d' =>
      if String.eqb k key then (key, value) :: d'
      else (k, v) :: dict_set key value d'
  end.

(** [d.get(key)]. *)
Fixpoint dict_get {V} (key : string) (d : list (string * V)) : option V :=
  match d with
  | [] => None
  | (k, v) :: d' => if String.eqb k key then Some v else dict_get key d'
  end.

(** [len(d)]. *)
Definition len {A} (l : list A) : Z := Z.of_nat (List.length l).

(** The variables [visited] and [results] that [crawl] closes over,
    together with the process it runs in. *)
Record crawl_state : Type := mkCrawl {
  visited : gset string;
  results : list (string * article);
  proc : process
}.

(** Run a computation of the process inside the crawl. *)
Definition io {A} (c : M process A) : M crawl_state A :=
  fun st =>
    let (r, p) := c (proc st) in
    (r, {| visited := visited st; results := results st; proc := p |}).

(** [visited.add(current_url)]. *)
Definition visited_add (current_url : string) : M crawl_state unit :=
  fun st => (Ok tt, {| visited := {[current_url]} ∪ visited st;
                       results := results st;
                       proc := proc st |}).

(** [results[current_url] = article_content]. *)
Definition results_set (current_url : string) (article_content : article)
  : M crawl_state unit :=
  fun st => (Ok tt, {| visited := visited st;
                       results := dict_set current_url article_content (results st);
                       proc := proc st |}).

(** The nested function [crawl(current_url, current_depth)].  [fuel] bounds
    the nesting of activations; the model raises [RecursionError] when it
    is used up. *)
Fixpoint crawl (net : network) (depth max_urls : Z) (fuel : nat)
    (current_url : string) (current_depth : Z) : M crawl_state unit :=
  match fuel with
  | O => raise RecursionError
  | S fuel' =>
      st <- get_state ;;
      if (len (results st) >=? max_urls)
         || (current_depth >? depth)
         || bool_decide (current_url ∈ visited st)
      then ret tt
      else
        visited_add current_url ;;;
        io (print (Crawling current_url current_depth (len (results st)))) ;;;
        article_content <- io (extract_article_content net current_url) ;;
        match article_content with
        | Some a => results_set current_url a
        | None => ret tt
        end ;;;
        links <- io (get_all_links net current_url) ;;
        for_each links (fun link =>
          st <- get_state ;;
          if negb (bool_decide (link ∈ visited st))
             && (len (results st) <? max_urls)
          then crawl net depth max_urls fuel' link (current_depth + 1)
          else ret tt)
  end.

(** Activations nested inside one another never exceed [depth + 2]: one for
    each depth from [0] to [depth], and one that returns at once.  The
    interpreter's own recursion limit is not part of this embedding: the
    call stack is taken to be deep enough for [depth + 2] activations. *)
Definition crawl_fuel (depth : Z) : nat := S (Z.to_nat (depth + 1)).

(** [scrape_all_links_and_content(start_url, depth, max_urls)]. *)
Definition scrape_all_links_and_content (net : network) (start_url : string)
    (depth max_urls : Z) : M process (list (string * article)) :=
  fun p =>
    let st := {| visited := ∅; results := []; proc := p |} in
    match crawl net depth max_urls (crawl_fuel depth) start_url 0 st with
    | (Ok _, st') => (Ok (results st'), proc st')
    | (Raise e, st') => (Raise e, proc st')
    end.

(** The final state of the closure variables, for statements about the
    visited set. *)
Definition scrape_final (net : network) (start_url : string)
    (depth max_urls : Z) (p : process) : result unit * crawl_state :=
  crawl net depth max_urls (crawl_fuel depth) start_url 0
        {| visited := ∅; results := []; proc := p |}.

(* ===================================================================== *)
(** * Report writer *)
(* ===================================================================== *)

(** A value a Python function can hand back. *)
Inductive pyval : Type :=
| PyNone
| PyInt (z : Z).

(** The file-system operations that can fail. *)
Inductive fs_op : Type :=
| MakeDirs (dir_name : string)
| OpenWrite (filename : string).

(** A behaviour of the file system: which operations go through. *)
Definition filesystem : Type := fs_op -> bool.

Module OsPath.

Definition slash : ascii := Ascii.ascii_of_nat 47.

(** [p[:p.rfind('/') + 1]]. *)
Fixpoint upto_last_slash (p : string) : string :=
  match p with
  | EmptyString => EmptyString
  | String c p' =>
      match upto_last_slash p' with
      | EmptyString =>
          if Ascii.eqb c slash then String c EmptyString else EmptyString
      | h => String c h
      end
  end.

(** [head == '/' * len(head)]. *)
Fixpoint all_slashes (head : string) : bool :=
  match head with
  | EmptyString => true
  | String c h => Ascii.eqb c slash && all_slashes h
  end.

(** [head.rstrip('/')]. *)
Fixpoint rstrip_slashes (head : string) : string :=
  match head with
  | EmptyString => EmptyString
  | String c h =>
      match rstrip_slashes h with
      | EmptyString =>
          if Ascii.eqb c slash then EmptyString else String c EmptyString
      | r => String c r
      end
  end.

(** [os.path.dirname(p)] of [posixpath]. *)
Definition dirname (p : string) : string :=
  let head := upto_last_slash p in
  if PyStr.truthy head && negb (all_slashes head)
  then rstrip_slashes head
  else head.

End OsPath.

(** [os.makedirs(dir_name, exist_ok=True)]. *)
Definition makedirs (fs : filesystem) (dir_name : string) : M process unit :=
  fun p => if fs (MakeDirs dir_name) then (Ok tt, p) else (Raise OSError, p).

Definition set_file (filename text : string) (p : process) : process :=
  {| requests := requests p;
     trace := trace p;
     files := <[filename := text]> (files p) |}.

(** [open(filename, 'w', encoding='utf-8')]: the file is created or
    truncated. *)
Definition open_w (fs : filesystem) (filename : string) : M process unit :=
  fun p => if fs (OpenWrite filename)
           then (Ok tt, set_file filename EmptyString p)
           else (Raise OSError, p).

(** [file.write(text)] on the file opened under [filename]. *)
Definition file_write (filename text : string) : M process unit :=
  fun p => (Ok tt, set_file filename
                     (default EmptyString (files p !! filename) +:+ text) p).

(** The body of [for url, article in data.items()]. *)
Definition write_article (filename : string) (entry : string * article)
  : M process unit :=
  let (url, article) := entry in
  file_write filename ("URL: " +:+ url +:+ nl) ;;;
  file_write filename ("Title: " +:+ a_title article +:+ nl) ;;;
  file_write filename ("Content:" +:+ nl) ;;;
  for_each (a_content article) (fun section =>
    file_write filename ("  " +:+ heading section +:+ nl) ;;;
    for_each (content section) (fun paragraph =>
      file_write filename ("    " +:+ paragraph +:+ nl)) ;;;
    file_write filename nl) ;;;
  file_write filename (nl +:+ PyStr.repeat "=" 50 +:+ nl +:+ nl).

(** [save_results_to_txt(data, filename)].  The function has no [return]
    statement: a call evaluates to [None]. *)
Definition save_results_to_txt (fs : filesystem)
    (data : list (string * article)) (filename : string) : M process pyval :=
  let dir_name := OsPath.dirname filename in
  (if PyStr.truthy dir_name then makedirs fs dir_name else ret tt) ;;;
  open_w fs filename ;;;
  for_each data (write_article filename) ;;;
  print (Saved (len data) filename) ;;;
  ret PyNone.

(* ===================================================================== *)
(** * Vocabulary of the statements *)
(* ===================================================================== *)

(** A section with at least one paragraph entry. *)
Definition filled (s : sect) : Prop := content s <> [].

(** The hrefs of a list of tags, in order. *)
Definition hrefs (links : list node) : list string :=
  omap (Dom.attr "href") links.

(** The events of one call on [url]: no request for another URL, and no
    [Crawling] line. *)
Definition quiet (url : string) (evs : list event) : bool :=
  forallb (fun e => match e with
                    | Get u => String.eqb u url
                    | Print (Crawling _ _ _) => false
                    | _ => true
                    end) evs.

(** What a call on [url] leaves behind in the process. *)
Definition extends (url : string) (p p' : process) : Prop :=
  exists evs, trace p' = (trace p ++ evs)%list /\ quiet url evs = true.

(** The activation of [crawl] that is running after the events [evs]: the
    URL and the depth of the last [Crawling] line, or [cur] when there is
    none. *)
Fixpoint activation (cur : option (string * Z)) (evs : list event)
  : option (string * Z) :=
  match evs with
  | [] => cur
  | Print (Crawling u d _) :: evs' => activation (Some (u, d)) evs'
  | _ :: evs' => activation cur evs'
  end.

(** A trace in which every [Crawling] line has a depth between [0] and
    [depth], and every request is for the URL of the running activation. *)
Fixpoint trace_ok (depth : Z) (cur : option (string * Z)) (evs : list event)
  : bool :=
  match evs with
  | [] => true
  | Print (Crawling u d _) :: evs' =>
      (0 <=? d) && (d <=? depth) && trace_ok depth (Some (u, d)) evs'
  | Get u :: evs' =>
      match cur with
      | Some (u', _) => String.eqb u u'
      | None => false
      end && trace_ok depth cur evs'
  | _ :: evs' => trace_ok depth cur evs'
  end.

(** The part of an activation of [crawl] that comes before its loop: the
    URL is marked, announced, extracted, and its links are collected. *)
Definition visit (net : network) (current_url : string) (current_depth : Z)
  : M crawl_state (list string) :=
  st <- get_state ;;
  visited_add current_url ;;;
  io (print (Crawling current_url current_depth (len (results st)))) ;;;
  article_content <- io (extract_article_content net current_url) ;;
  match article_content with
  | Some a => results_set current_url a
  | None => ret tt
  end ;;;
  io (get_all_links net current_url).

(** The test at the head of [crawl]. *)
Definition stops (depth max_urls : Z) (current_url : string)
    (current_depth : Z) (st : crawl_state) : bool :=
  (len (results st) >=? max_urls)
  || (current_depth >? depth)
  || bool_decide (current_url ∈ visited st).

(** The body of the loop over [links]. *)
Definition follow (net : network) (depth max_urls : Z) (fuel : nat)
    (current_depth : Z) (link : string) : M crawl_state unit :=
  st <- get_state ;;
  if negb (bool_decide (link ∈ visited st)) && (len (results st) <? max_urls)
  then crawl net depth max_urls fuel link (current_depth + 1)
  else ret tt.

(** The dictionary never outgrows [max_urls], and its keys are distinct. *)
Definition within_bound (max_urls : Z) (st : crawl_state) : Prop :=
  len (results st) <= max_urls /\ List.NoDup (List.map fst (results st)).

(** Every article sits under its own URL. *)
Definition keyed_by_url (st : crawl_state) : Prop :=
  forall u a, In (u, a) (results st) -> a_url a = u.

(** Since the trace [t0], the crawl has left a well-formed trace, with a
    [Crawling] line for every URL it marked. *)
Definition traced (depth : Z) (t0 : list event) (st : crawl_state) : Prop :=
  exists evs,
    trace (proc st) = (t0 ++ evs)%list /\
    trace_ok depth None evs = true /\
    forall u, u ∈ visited st -> exists d n, In (Print (Crawling u d n)) evs.

(** The trace has grown from [t0]. *)
Definition grown_from (t0 : list event) (st : crawl_state) : Prop :=
  exists evs, trace (proc st) = (t0 ++ evs)%list.

(** A computation that returns and leaves no event. *)
Definition silent (c : M process unit) : Prop :=
  forall p, fst (c p) = Ok tt /\ trace (snd (c p)) = trace p.

(* ===================================================================== *)
(** * Sample documents and environments *)
(* ===================================================================== *)

Module Sample.

Definition h2 (text : string) : node := Element "h2" ∅ [] [Text text].

Definition para (text : string) : node := Element "p" ∅ [] [Text text].

Definition anchor (href : string) : node :=
  Element "a" {[ "href" := href ]} [] [Text "link"].

Definition first_heading (text : string) : node :=
  Element "h1" {[ "id" := "firstHeading" ]} [] [Text text].

Definition content_div (children : list node) : node :=
  Element "div" ∅ ["mw-parser-output"] children.

(** A page: what stands before the content container, the children of the
    container, and the anchors after it. *)
Definition page (before children : list node) (hrefs : list string)
  : list node :=
  [Element "html" ∅ []
     [Element "body" ∅ []
        (before ++ [content_div children] ++ List.map anchor hrefs)%list]].

(** Two headings with one paragraph between them. *)
Definition two_headings : list node :=
  [h2 "History"; para " Some text. "; h2 "Theory"].

(** A network that answers every request in the same way. *)
Definition always (r : fetch_result) : network := fun _ _ => r.

(** An article page that links to itself twice and to its talk page. *)
Definition music : list node :=
  page [first_heading " Music "] two_headings
       ["/wiki/Music"; "/wiki/Music"; "/wiki/Talk:Music"].

(** The same page without its title element. *)
Definition untitled : list node :=
  page [] two_headings [].

(** A file system on which every operation succeeds. *)
Definition fs_ok : filesystem := fun _ => true.

Definition one_article : list (string * article) :=
  [("u", mkArticle "u" "T" [mkSect "H" ["p1"; "p2"]])].

End Sample.

(* ===================================================================== *)
(** * The entry point *)
(* ===================================================================== *)

(** The seed of [main], [https://zh.wikipedia.org/zh-hans/] followed by the
    two characters of the article's name, here in their UTF-8 bytes. *)
Definition start_url : string :=
  "https://zh.wikipedia.org/zh-hans/" +:+
  String (Ascii.ascii_of_nat 233) (String (Ascii.ascii_of_nat 159)
  (String (Ascii.ascii_of_nat 179) (String (Ascii.ascii_of_nat 228)
  (String (Ascii.ascii_of_nat 185) (String (Ascii.ascii_of_nat 144)
  EmptyString))))).

(** The default [filename] of [save_results_to_txt]. *)
Definition default_filename : string := "wikipedia_content.txt".

(** [main()]. *)
Definition main (net : network) (fs : filesystem) : M process unit :=
  scraped_data <- scrape_all_links_and_content net start_url 2 5 ;;
  save_results_to_txt fs scraped_data default_filename ;;;
  ret tt.

(* ===================================================================== *)
(** * Further vocabulary *)
(* ===================================================================== *)

(** A paragraph entry that [text.strip()] does not empty. *)
Definition nonblank (text : string) : Prop := PyStr.strip text <> EmptyString.

(** The title the extractor gives a document. *)
Definition page_title (soup : list node) : string :=
  match Dom.find_by_id "h1" "firstHeading" soup with
  | Some t => PyStr.strip (Dom.get_text false t)
  | None => "No Title"
  end.

(** The sections once the last open one is closed. *)
Definition close_sections (acc : list sect) (current_heading : string)
    (current_content : list string) : list sect :=
  if nonempty current_content
  then (acc ++ [mkSect current_heading current_content])%list
  else acc.

(** The hrefs a fetched page offers to the crawl: those of its anchors
    that start with [/wiki/] and pass the classifier; none when the fetch
    fails. *)
Definition outbound (r : fetch_result) : list string :=
  match r with
  | Response _ soup =>
      List.filter is_valid_article (hrefs (Dom.find_all_href "a" "/wiki/" soup))
  | _ => []
  end.

(** An absolute URL made by the link collector. *)
Definition on_site (u : string) : Prop :=
  exists href,
    u = base_origin +:+ href /\
    PyStr.startswith "/wiki/" href = true /\
    is_valid_article href = true.

(** The URLs of the [Crawling] lines of a trace, in order. *)
Fixpoint announced (evs : list event) : list string :=
  match evs with
  | [] => []
  | Print (Crawling u _ _) :: evs' => u :: announced evs'
  | _ :: evs' => announced evs'
  end.

(** The URLs requested in a trace, in order. *)
Fixpoint requested (evs : list event) : list string :=
  match evs with
  | [] => []
  | Get u :: evs' => u :: requested evs'
  | _ :: evs' => requested evs'
  end.

(** The text the writer produces for one section, one article, and a whole
    mapping. *)
Definition render_section (s : sect) : string :=
  "  " +:+ heading s +:+ nl +:+
  PyStr.concat (List.map (fun paragraph => "    " +:+ paragraph +:+ nl) (content s))
  +:+ nl.

Definition render_article (entry : string * article) : string :=
  "URL: " +:+ fst entry +:+ nl +:+
  "Title: " +:+ a_title (snd entry) +:+ nl +:+
  "Content:" +:+ nl +:+
  PyStr.concat (List.map render_section (a_content (snd entry))) +:+
  nl +:+ PyStr.repeat "=" 50 +:+ nl +:+ nl.

Definition render (data : list (string * article)) : string :=
  PyStr.concat (List.map render_article data).

(** A computation that appends [text] to the open file [filename] and does
    nothing else. *)
Definition appends (filename text : string) (c : M process unit) : Prop :=
  forall p old,
    files p !! filename = Some old ->
    c p = (Ok tt, set_file filename (old +:+ text) p).

(** [ '/' in s ]. *)
Fixpoint has_slash (s : string) : bool :=
  match s with
  | EmptyString => false
  | String c s' => Ascii.eqb c OsPath.slash || has_slash s'
  end.

(** A list item that holds one string. *)
Definition flat_item (n : node) (text : string) : Prop :=
  exists attrs cl, n = Element "li" attrs cl [Text text].

Module Fixture.

Definition li (text : string) : node := Element "li" ∅ [] [Text text].

Definition three_items : node :=
  Element "ul" ∅ [] [Text nl; li "one"; Text nl; li " two "; li "three"].

(** A page whose content starts before its first heading. *)
Definition lead_page : list node :=
  Sample.page [Sample.first_heading "Music"]
              [Sample.para "Lead."; Sample.h2 "History"; Sample.para "Past."]
              ["/wiki/Sound"; "/wiki/Help:Contents"].


(** A page without a content container. *)
Definition bare_page : list node :=
  [Element "html" ∅ [] [Sample.first_heading "Music"]].

(** A file system on which nothing can be opened. *)
Definition fs_closed : filesystem :=
  fun op => match op with MakeDirs _ => true | OpenWrite _ => false end.

End Fixture.

(** What holds of a crawl from the process [p0] and the seed [seed], after
    the events [evs]: no URL is announced twice; the visited set is the set
    of announced URLs; the keys of the results follow the order of the
    announcements; each announced URL is requested exactly twice, and
    nothing else is; no file is touched; every announced URL is the seed
    or a link made by the link collector. *)
Definition crawl_inv (p0 : process) (seed : string) (st : crawl_state) : Prop :=
  exists evs,
    trace (proc st) = (trace p0 ++ evs)%list /\
    List.NoDup (announced evs) /\
    (forall u, u ∈ visited st <-> In u (announced evs)) /\
    List.map fst (results st) `sublist_of` announced evs /\
    requests (proc st)
    = (requests p0 + 2 * List.length (announced evs))%nat /\
    requested evs = flat_map (fun u => [u; u]) (announced evs) /\
    files (proc st) = files p0 /\
    Forall (fun u => u = seed \/ on_site u) (announced evs).

(** Every article of the dictionary is one the extractor returned for its
    key. *)
Definition extracted (net : network) (st : crawl_state) : Prop :=
  forall u a,
    In (u, a) (results st) ->
    exists q, fst (extract_article_content net u q) = Ok (Some a).

(** Every [Crawling] line of the trace since [t0] shows a count of
    results below [max_urls]. *)
Definition below_quota (max_urls : Z) (t0 : list event) (st : crawl_state)
  : Prop :=
  exists evs,
    trace (proc st) = (t0 ++ evs)%list /\
    forall u d n, In (Print (Crawling u d n)) evs -> 0 <= n < max_urls.

(* ===================================================================== *)
(** * Properties of the string primitives *)
(* ===================================================================== *)

Lemma startswith_app (p t : string) : PyStr.startswith p (p +:+ t) = true.
Proof.
  induction p as [|a p IH]; simpl; [reflexivity|].
  rewrite Ascii.eqb_refl. exact IH.
Qed.

Lemma startswith_inv (p s : string) :
  PyStr.startswith p s = true -> exists t, s = p +:+ t.
Proof.
  revert s. induction p as [|a p IH]; intros s H; simpl in *.
  - exists s. reflexivity.
  - destruct s as [|b s]; [discriminate|].
    apply andb_true_iff in H as [Hab Hps].
    apply Ascii.eqb_eq in Hab. subst b.
    destruct (IH _ Hps) as [t ->]. exists t. reflexivity.
Qed.

Lemma re_search_startswith (pat s : string) :
  PyStr.startswith pat s = true -> PyStr.re_search pat s = true.
Proof. intros H. destruct s; simpl; rewrite H; reflexivity. Qed.

Lemma re_search_found (pat pre post : string) :
  PyStr.re_search pat (pre +:+ pat +:+ post) = true.
Proof.
  induction pre as [|c pre IH].
  - change (PyStr.re_search pat (pat +:+ post) = true).
    apply re_search_startswith, startswith_app.
  - change (PyStr.re_search pat (String c (pre +:+ pat +:+ post)) = true).
    simpl. rewrite IH. apply orb_true_r.
Qed.

Lemma re_search_inv (pat s : string) :
  PyStr.re_search pat s = true -> exists pre post, s = pre +:+ pat +:+ post.
Proof.
  induction s as [|c s IH]; simpl; intros H.
  - rewrite orb_false_r in H. destruct (startswith_inv _ _ H) as [t Ht].
    exists EmptyString, t. exact Ht.
  - apply orb_true_iff in H as [H|H].
    + destruct (startswith_inv _ _ H) as [t Ht].
      exists EmptyString, t. exact Ht.
    + destruct (IH H) as (pre & post & ->).
      exists (String c pre), post. reflexivity.
Qed.

(** The loop answers [False] exactly when some pattern is found. *)
Lemma is_valid_article_loop_false (patterns : list string) (url : string) :
  is_valid_article_loop patterns url = false <->
  exists pat, In pat patterns /\ PyStr.re_search pat url = true.
Proof.
  induction patterns as [|pat rest IH]; simpl.
  - split; [discriminate | intros (? & [] & _)].
  - destruct (PyStr.re_search pat url) eqn:E.
    + split; [|reflexivity]. intros _. exists pat. auto.
    + rewrite IH. split.
      * intros (q & Hq & Hs). exists q. auto.
      * intros (q & [<-|Hq] & Hs); [congruence|]. exists q. auto.
Qed.

(* ===================================================================== *)
(** * The URL classifier *)
(* ===================================================================== *)

(** [is_valid_article] answers [False] exactly when the href contains one
    of the patterns. *)
Lemma is_valid_article_false_iff (url : string) :
  is_valid_article url = false <->
  exists pat pre post, In pat exclude_patterns /\ url = pre +:+ pat +:+ post.
Proof.
  unfold is_valid_article. rewrite is_valid_article_loop_false. split.
  - intros (pat & Hin & Hs).
    destruct (re_search_inv _ _ Hs) as (pre & post & ->).
    exists pat, pre, post. auto.
  - intros (pat & pre & post & Hin & ->).
    exists pat. split; [exact Hin | apply re_search_found].
Qed.

(** An href that starts with one of the patterns is rejected. *)
Lemma is_valid_article_prefix (pat rest : string) :
  In pat exclude_patterns -> is_valid_article (pat +:+ rest) = false.
Proof.
  intros Hin. apply is_valid_article_false_iff.
  exists pat, EmptyString, rest. auto.
Qed.

(** The classifier of the code and the one worded in the specification
    part ways on an href that merely contains a pattern: after the main
    page's name, or further down the path. *)
Lemma is_valid_article_differs_from_prefix_test :
  (is_valid_article "/wiki/Main_Page_(album)" = false /\
   spec_is_article "/wiki/Main_Page_(album)" = true) /\
  (is_valid_article "/wiki/Music/wiki/Talk:Music" = false /\
   spec_is_article "/wiki/Music/wiki/Talk:Music" = true).
Proof. repeat split; reflexivity. Qed.

(** C1, amended: [is_valid_article] answers [False] exactly for the hrefs
    that contain, at any position, one of the ten patterns (the nine
    namespace patterns and [/wiki/Main_Page]), and [True] for all the
    others; in particular every href that starts with one of the patterns
    gives [False], [/wiki/Special:Search] gives [False], [/wiki/Music]
    gives [True] and [/wiki/Talk:Music] gives [False]. *)
Theorem is_valid_article_spec :
  (forall url : string,
      is_valid_article url = false <->
      exists pat pre post,
        In pat exclude_patterns /\ url = pre +:+ pat +:+ post) /\
  (forall url : string,
      is_valid_article url = true <->
      forall pat pre post,
        In pat exclude_patterns -> url <> pre +:+ pat +:+ post) /\
  (forall pat rest : string,
      In pat exclude_patterns -> is_valid_article (pat +:+ rest) = false) /\
  is_valid_article "/wiki/Special:Search" = false /\
  is_valid_article "/wiki/Music" = true /\
  is_valid_article "/wiki/Talk:Music" = false.
Proof.
  split; [exact is_valid_article_false_iff|].
  split; [|split; [exact is_valid_article_prefix | repeat split; reflexivity]].
  intros url. split.
  - intros Ht pat pre post Hin ->.
    assert (Hf : is_valid_article (pre +:+ pat +:+ post) = false).
    { apply is_valid_article_false_iff. exists pat, pre, post. auto. }
    congruence.
  - intros Hnone. destruct (is_valid_article url) eqn:E; [reflexivity|].
    apply is_valid_article_false_iff in E as (pat & pre & post & Hin & ->).
    exfalso. exact (Hnone pat pre post Hin eq_refl).
Qed.

(* ===================================================================== *)
(** * The content extractor *)
(* ===================================================================== *)

Ltac run_process :=
  unfold try_except, bind, ret, lift, raise, print, sleep, emit, requests_get;
  simpl.

Lemma extends_of_trace (url : string) (p p' : process) (evs : list event) :
  trace p' = (trace p ++ evs)%list -> quiet url evs = true -> extends url p p'.
Proof. intros H1 H2. exists evs. auto. Qed.

(** Every section pushed by the loop has something in it. *)
Lemma sections_loop_filled (elements : list node) :
  forall acc current_heading current_content acc' h' cc',
    sections_loop elements acc current_heading current_content
      = Ok (acc', h', cc') ->
    Forall filled acc -> Forall filled acc'.
Proof.
  induction elements as [|element rest IH]; simpl;
    intros acc h cc acc' h' cc' Hrun Hacc.
  - inversion Hrun. subst. exact Hacc.
  - destruct (Dom.name_in heading_names element).
    + destruct cc as [|c cc]; simpl in Hrun.
      * eapply IH; eauto.
      * eapply IH; [exact Hrun|].
        apply Forall_app. split; [exact Hacc|].
        constructor; [|constructor]. unfold filled. simpl. discriminate.
    + destruct (extract_text element) as [text|e]; [|discriminate].
      destruct (PyStr.truthy (PyStr.strip text)); eapply IH; eauto.
Qed.

Lemma nonempty_true {A} (l : list A) : nonempty l = true <-> l <> [].
Proof. destruct l; simpl; split; congruence. Qed.

Ltac close_extends :=
  eapply extends_of_trace; simpl;
  [ rewrite <- ?app_assoc; reflexivity
  | simpl; rewrite ?String.eqb_refl; reflexivity ].

(* A branch that hands back no article. *)
Ltac no_article :=
  eexists _, _; split; [reflexivity|]; simpl;
  repeat split; try discriminate; close_extends.

(** The outcome of [extract_article_content], case by case on what the
    network answers and on what the document holds. *)
Lemma extract_article_content_cases (net : network) (url : string) (p : process) :
  exists v p',
    extract_article_content net url p = (Ok v, p') /\
    requests p' = S (requests p) /\
    files p' = files p /\
    extends url p p' /\
    (forall a, v = Some a ->
               a_url a = url /\ a_content a <> [] /\ Forall filled (a_content a)).
Proof.
  unfold extract_article_content, extract_article_content_body.
  run_process.
  destruct (net (requests p) url) as [| |status soup] eqn:Hnet; simpl;
    [no_article | no_article |].
  destruct (Dom.find_by_class "div" "mw-parser-output" soup)
    as [content_div|]; simpl; [|no_article].
  destruct (sections_loop _ _ _ _) as [[[acc h] cc]|e] eqn:Hloop; simpl;
    [|no_article].
  assert (Hacc : Forall filled acc).
  { eapply sections_loop_filled; [exact Hloop | constructor]. }
  destruct cc as [|c cc]; simpl.
  - destruct acc as [|s acc]; simpl; [no_article|].
    eexists _, _. split; [reflexivity|]. simpl.
    split; [reflexivity|]. split; [reflexivity|]. split; [close_extends|].
    intros a [= <-]. simpl. repeat split; [discriminate|exact Hacc].
  - destruct (acc ++ [_])%list as [|s acc1] eqn:Happ.
    { destruct acc; discriminate. }
    simpl. eexists _, _. split; [reflexivity|]. simpl.
    split; [reflexivity|]. split; [reflexivity|]. split; [close_extends|].
    intros a [= <-]. simpl. repeat split; [discriminate|].
    rewrite <- Happ. apply Forall_app. split; [exact Hacc|].
    constructor; [|constructor]. unfold filled. simpl. discriminate.
Qed.

(** C9: every article that [extract_article_content] returns has at least
    one section, and each of its sections has at least one paragraph
    entry. *)
Theorem extract_sections_filled (net : network) (url : string) (p : process)
    (a : article) :
  fst (extract_article_content net url p) = Ok (Some a) ->
  a_content a <> [] /\ Forall (fun s => content s <> []) (a_content a).
Proof.
  intros Hrun.
  destruct (extract_article_content_cases net url p)
    as (v & p' & Heq & _ & _ & _ & Hart).
  rewrite Heq in Hrun. simpl in Hrun. injection Hrun as ->.
  destruct (Hart a eq_refl) as (_ & Hne & Hall). split; assumption.
Qed.

Lemma extract_sections_filled_witness :
  let a := mkArticle "u" "Music" [mkSect "History" ["Some text."]] in
  fst (extract_article_content
         (Sample.always (Response 200 Sample.music)) "u" start) = Ok (Some a) /\
  a_content a <> [] /\ Forall (fun s => content s <> []) (a_content a).
Proof.
  intros a. split; [reflexivity|].
  apply (extract_sections_filled
           (Sample.always (Response 200 Sample.music)) "u" start a).
  reflexivity.
Defined.

Lemma paragraph_is_no_heading (para : node) :
  Dom.name_is "p" para = true ->
  Dom.name_in heading_names para = false /\
  extract_text para = Ok (Dom.get_text true para).
Proof.
  destruct para as [s|cls s|nm attrs cl ch]; [discriminate|discriminate|].
  unfold Dom.name_is, Dom.name_in. simpl. rewrite orb_false_r.
  intros H. apply String.eqb_eq in H. subst nm. split; reflexivity.
Qed.

Lemma truthy_true (s : string) : PyStr.truthy s = true <-> s <> EmptyString.
Proof. destruct s; simpl; split; congruence. Qed.






(** A response with status 404 is parsed like any other. *)
Lemma extract_parses_non_2xx :
  fst (extract_article_content
         (Sample.always (Response 404 Sample.music)) "u" start)
  = Ok (Some (mkArticle "u" "Music" [mkSect "History" ["Some text."]])).
Proof. reflexivity. Qed.

(** C3, amended: when the fetch ends in a timeout or a connection error,
    [extract_article_content] returns [None] after printing one diagnostic
    line, and no exception leaves it.  A response with a non-2xx status is
    no such failure: the extractor does with it what it does with a
    response of any other status that has the same body. *)
Theorem extract_transport_failure (net : network) (url : string) (p : process) :
  (net (requests p) url = Timeout \/ net (requests p) url = ConnectionFailed ->
   exists e p',
     extract_article_content net url p = (Ok None, p') /\
     trace p'
     = (trace p ++ [Sleep; Get url; Print (ErrorExtracting url e)])%list) /\
  (forall (net' : network) (status status' : Z) (soup : list node),
      net (requests p) url = Response status soup ->
      net' (requests p) url = Response status' soup ->
      extract_article_content net' url p = extract_article_content net url p).
Proof.
  split.
  - intros [Hnet|Hnet];
      unfold extract_article_content, extract_article_content_body;
      run_process; rewrite Hnet; simpl.
    + exists TimeoutError. eexists. split; [reflexivity|].
      simpl. rewrite <- !app_assoc. reflexivity.
    + exists ConnectionError. eexists. split; [reflexivity|].
      simpl. rewrite <- !app_assoc. reflexivity.
  - intros net' status status' soup Hnet Hnet'.
    unfold extract_article_content, extract_article_content_body.
    run_process. rewrite Hnet, Hnet'. reflexivity.
Qed.

Lemma extract_transport_failure_witness :
  (exists e p',
      extract_article_content (Sample.always Timeout) "u" start = (Ok None, p') /\
      trace p' = [Sleep; Get "u"; Print (ErrorExtracting "u" e)]) /\
  extract_article_content (Sample.always (Response 404 Sample.music)) "u" start
  = extract_article_content (Sample.always (Response 200 Sample.music)) "u" start.
Proof.
  split.
  - apply (proj1 (extract_transport_failure (Sample.always Timeout) "u" start)).
    left. reflexivity.
  - apply (proj2 (extract_transport_failure
                    (Sample.always (Response 200 Sample.music)) "u" start)
                 (Sample.always (Response 404 Sample.music)) 200 404
                 Sample.music);
      reflexivity.
Defined.

(** Without a title element the extractor still returns an article. *)
Lemma extract_untitled_page :
  Dom.find_by_id "h1" "firstHeading" Sample.untitled = None /\
  fst (extract_article_content
         (Sample.always (Response 200 Sample.untitled)) "u" start)
  = Ok (Some (mkArticle "u" "No Title" [mkSect "History" ["Some text."]])).
Proof. split; reflexivity. Qed.

(** C6, amended: when the document has no title element, the extractor
    does not stop as it does for a missing content container: it takes
    ["No Title"] as the title and goes on, and when the container yields a
    section it returns an article with that title. *)
Theorem extract_without_title (net : network) (url : string) (p : process)
    (status : Z) (soup : list node) (content_div : node)
    (acc : list sect) (h : string) (cc : list string) :
  net (requests p) url = Response status soup ->
  Dom.find_by_id "h1" "firstHeading" soup = None ->
  Dom.find_by_class "div" "mw-parser-output" soup = Some content_div ->
  sections_loop (Dom.children content_div) [] "No Title" [] = Ok (acc, h, cc) ->
  acc <> [] \/ cc <> [] ->
  fst (extract_article_content net url p)
  = Ok (Some (mkArticle url "No Title"
                (if nonempty cc then (acc ++ [mkSect h cc])%list else acc))).
Proof.
  intros Hnet Htitle Hdiv Hloop Hsome.
  unfold extract_article_content, extract_article_content_body.
  run_process. rewrite Hnet. simpl. rewrite Htitle, Hdiv. simpl.
  rewrite Hloop. simpl.
  destruct cc as [|c cc]; simpl.
  - destruct acc as [|s acc]; simpl; [|reflexivity].
    destruct Hsome; congruence.
  - destruct (acc ++ [_])%list eqn:Happ; [destruct acc; discriminate|].
    reflexivity.
Qed.

Lemma extract_without_title_witness :
  fst (extract_article_content
         (Sample.always (Response 200 Sample.untitled)) "u" start)
  = Ok (Some (mkArticle "u" "No Title" [mkSect "History" ["Some text."]])).
Proof.
  apply (extract_without_title
           (Sample.always (Response 200 Sample.untitled)) "u" start 200
           Sample.untitled (Sample.content_div Sample.two_headings)
           [mkSect "History" ["Some text."]] "Theory" []);
    try reflexivity.
  left. discriminate.
Defined.

(* ===================================================================== *)
(** * The link collector *)
(* ===================================================================== *)

(** On tags that all carry an href, the comprehension is a filter
    followed by a map, and [link['href']] never fails. *)
Lemma full_links_map_filter (links : list node) :
  Forall (fun link => Dom.attr "href" link <> None) links ->
  full_links links
  = Ok (List.map (fun href => base_origin +:+ href)
                 (List.filter is_valid_article (hrefs links))).
Proof.
  induction 1 as [|link rest Hlink Hrest IH]; [reflexivity|].
  unfold hrefs in *. simpl. destruct (Dom.attr "href" link) as [href|] eqn:E;
    [|congruence].
  rewrite IH. simpl. destruct (is_valid_article href); reflexivity.
Qed.

Lemma find_all_href_has_href (nm pre : string) (soup : list node) :
  Forall (fun link => Dom.attr "href" link <> None)
         (Dom.find_all_href nm pre soup).
Proof.
  unfold Dom.find_all_href. apply List.Forall_forall. intros link Hin.
  apply List.filter_In in Hin as [_ Hok].
  destruct (Dom.attr "href" link); [discriminate|].
  rewrite andb_false_r in Hok. discriminate.
Qed.

(** The outcome of [get_all_links], whatever the network answers. *)
Lemma get_all_links_cases (net : network) (url : string) (p : process) :
  exists links p',
    get_all_links net url p = (Ok links, p') /\
    requests p' = S (requests p) /\
    files p' = files p /\
    extends url p p'.
Proof.
  unfold get_all_links. run_process.
  destruct (net (requests p) url) as [| |status soup]; simpl.
  - eexists _, _. split; [reflexivity|]. simpl. repeat split. close_extends.
  - eexists _, _. split; [reflexivity|]. simpl. repeat split. close_extends.
  - rewrite full_links_map_filter by apply find_all_href_has_href.
    eexists _, _. split; [reflexivity|]. simpl. repeat split. close_extends.
Qed.

(** Two anchors with the same href give the same URL twice. *)
Lemma get_all_links_keeps_duplicates :
  fst (get_all_links (Sample.always (Response 200 Sample.music)) "u" start)
  = Ok ["https://zh.wikipedia.org/wiki/Music";
        "https://zh.wikipedia.org/wiki/Music"] /\
  ~ List.NoDup ["https://zh.wikipedia.org/wiki/Music";
           "https://zh.wikipedia.org/wiki/Music"].
Proof.
  split; [reflexivity|].
  intros Hnd. inversion Hnd as [|x l Hnotin _]. subst.
  apply Hnotin. left. reflexivity.
Qed.

(** C5, amended: [get_all_links] returns a list, not a set: it holds one
    absolute URL for each anchor whose href starts with [/wiki/] and passes
    the classifier, in document order, and an href met on several anchors
    occurs as many times. *)
Theorem get_all_links_is_list (net : network) (url : string) (p : process)
    (status : Z) (soup : list node) :
  net (requests p) url = Response status soup ->
  fst (get_all_links net url p)
  = Ok (List.map (fun href => base_origin +:+ href)
          (List.filter is_valid_article
             (hrefs (Dom.find_all_href "a" "/wiki/" soup)))).
Proof.
  intros Hnet. unfold get_all_links. run_process. rewrite Hnet. simpl.
  rewrite full_links_map_filter by apply find_all_href_has_href.
  reflexivity.
Qed.

Lemma get_all_links_is_list_witness :
  fst (get_all_links (Sample.always (Response 200 Sample.music)) "u" start)
  = Ok (List.map (fun href => base_origin +:+ href)
          (List.filter is_valid_article
             (hrefs (Dom.find_all_href "a" "/wiki/" Sample.music)))).
Proof.
  apply (get_all_links_is_list
           (Sample.always (Response 200 Sample.music)) "u" start 200).
  reflexivity.
Defined.

(* ===================================================================== *)
(** * The crawl controller *)
(* ===================================================================== *)

(** A loop keeps what each round keeps. *)
Lemma for_each_preserves {S A} (I : S -> Prop) (body : A -> M S unit)
    (l : list A) :
  (forall x s, I s -> I (snd (body x s))) ->
  forall s, I s -> I (snd (for_each l body s)).
Proof.
  intros Hbody. induction l as [|x l IH]; intros s Hs; simpl; [exact Hs|].
  unfold bind. specialize (Hbody x s Hs).
  destruct (body x s) as [[[]|e] s']; simpl in *; auto.
Qed.

(** A loop whose rounds all return, returns. *)
Lemma for_each_returns {S A} (body : A -> M S unit) (l : list A) :
  (forall x s, fst (body x s) = Ok tt) ->
  forall s, fst (for_each l body s) = Ok tt.
Proof.
  intros Hbody. induction l as [|x l IH]; intros s; simpl; [reflexivity|].
  unfold bind. specialize (Hbody x s).
  destruct (body x s) as [[[]|e] s']; simpl in *; [apply IH | discriminate].
Qed.

(** One activation of [crawl]: the test, the visit, the loop. *)
Lemma crawl_unfold (net : network) (depth max_urls : Z) (fuel : nat)
    (u : string) (d : Z) (st : crawl_state) :
  crawl net depth max_urls (S fuel) u d st
  = if stops depth max_urls u d st then (Ok tt, st)
    else match visit net u d st with
         | (Ok links, st1) =>
             for_each links (follow net depth max_urls fuel d) st1
         | (Raise e, st1) => (Raise e, st1)
         end.
Proof.
  simpl. unfold bind at 1. unfold get_state at 1. unfold stops.
  destruct (_ || _ || _); [reflexivity|].
  unfold visit, bind, get_state, visited_add, io, print, emit, ret. simpl.
  destruct (extract_article_content net u _) as [[[a|]|e] p1]; simpl;
    try reflexivity;
    unfold results_set; simpl;
    destruct (get_all_links net u p1) as [[links|e] p2]; reflexivity.
Qed.

(** What [visit] does to the state. *)
Lemma visit_spec (net : network) (u : string) (d : Z) (st : crawl_state) :
  exists links st',
    visit net u d st = (Ok links, st') /\
    visited st' = {[u]} ∪ visited st /\
    (results st' = results st \/
     exists a, a_url a = u /\ results st' = dict_set u a (results st)) /\
    exists evs,
      trace (proc st')
      = (trace (proc st) ++ Print (Crawling u d (len (results st))) :: evs)%list /\
      quiet u evs = true.
Proof.
  unfold visit, bind, get_state, visited_add, io, print, emit, ret. simpl.
  match goal with |- context [extract_article_content net u ?q] =>
    destruct (extract_article_content_cases net u q)
      as (v & p1 & -> & _ & _ & (evs1 & Htr1 & Hq1) & Hart)
  end.
  simpl in Htr1.
  assert (Hlinks := get_all_links_cases net u).
  destruct v as [a|]; simpl; unfold results_set; simpl.
  - destruct (Hlinks p1) as (links & p2 & -> & _ & _ & (evs2 & Htr2 & Hq2)).
    eexists _, _. split; [reflexivity|]. simpl. split; [reflexivity|]. split.
    + right. exists a. split; [apply (Hart a eq_refl) | reflexivity].
    + exists (evs1 ++ evs2)%list. split.
      * rewrite Htr2, Htr1, <- !app_assoc. reflexivity.
      * unfold quiet in *. rewrite forallb_app, Hq1, Hq2. reflexivity.
  - destruct (Hlinks p1) as (links & p2 & -> & _ & _ & (evs2 & Htr2 & Hq2)).
    eexists _, _. split; [reflexivity|]. simpl. split; [reflexivity|]. split.
    + left. reflexivity.
    + exists (evs1 ++ evs2)%list. split.
      * rewrite Htr2, Htr1, <- !app_assoc. reflexivity.
      * unfold quiet in *. rewrite forallb_app, Hq1, Hq2. reflexivity.
Qed.

Section Crawl.

Variable net : network.
Variables depth max_urls : Z.

(** The test at the head of [crawl], when it lets the activation go on. *)
Lemma stops_false (u : string) (d : Z) (st : crawl_state) :
  stops depth max_urls u d st = false ->
  len (results st) < max_urls /\ d <= depth /\ u ∉ visited st.
Proof.
  unfold stops. intros H.
  apply orb_false_iff in H as [H Hv]. apply orb_false_iff in H as [Hl Hd].
  apply bool_decide_eq_false in Hv.
  rewrite Z.geb_leb in Hl. apply Z.leb_gt in Hl.
  rewrite Z.gtb_ltb in Hd. apply Z.ltb_ge in Hd.
  auto.
Qed.

(** An invariant of the visits is an invariant of the crawl. *)
Lemma crawl_preserves (I : crawl_state -> Prop) :
  (forall u d st,
      0 <= d <= depth -> len (results st) < max_urls -> u ∉ visited st ->
      I st -> I (snd (visit net u d st))) ->
  forall fuel u d st,
    0 <= d -> I st -> I (snd (crawl net depth max_urls fuel u d st)).
Proof.
  intros Hvisit. induction fuel as [|fuel IH]; intros u d st Hd Hst.
  - exact Hst.
  - rewrite crawl_unfold.
    destruct (stops depth max_urls u d st) eqn:Hstop; [exact Hst|].
    apply stops_false in Hstop as (Hlen & Hdepth & Hnew).
    specialize (Hvisit u d st (conj Hd Hdepth) Hlen Hnew Hst).
    destruct (visit net u d st) as [[links|e] st1]; simpl in Hvisit;
      [|exact Hvisit].
    apply for_each_preserves; [|exact Hvisit].
    intros link s Hs. unfold follow, bind, get_state.
    destruct (_ && _); [|exact Hs].
    apply IH; [lia | exact Hs].
Qed.

(** With fuel for every depth up to [depth], [crawl] returns. *)
Lemma crawl_returns (fuel : nat) :
  forall u d st,
    0 <= d -> (Z.to_nat (depth + 1 - d) < fuel)%nat ->
    fst (crawl net depth max_urls fuel u d st) = Ok tt.
Proof.
  induction fuel as [|fuel IH]; intros u d st Hd Hfuel; [lia|].
  rewrite crawl_unfold.
  destruct (stops depth max_urls u d st) eqn:Hstop; [reflexivity|].
  apply stops_false in Hstop as (_ & Hdepth & _).
  destruct (visit_spec net u d st) as (links & st1 & -> & _).
  apply for_each_returns. intros link s. unfold follow, bind, get_state.
  destruct (_ && _); [|reflexivity].
  apply IH; lia.
Qed.

End Crawl.

(** ** The result dictionary *)

Lemma dict_set_length {V} (key : string) (value : V) (d : list (string * V)) :
  (List.length (dict_set key value d) <= S (List.length d))%nat.
Proof.
  induction d as [|[k v] d IH]; simpl; [lia|].
  destruct (String.eqb k key); simpl; lia.
Qed.

Lemma dict_set_In {V} (key : string) (value : V) (d : list (string * V))
    (entry : string * V) :
  In entry (dict_set key value d) -> entry = (key, value) \/ In entry d.
Proof.
  induction d as [|[k v] d IH]; simpl.
  - intros [<-|[]]. auto.
  - destruct (String.eqb k key); simpl; intros [<-|H]; auto.
    destruct (IH H); auto.
Qed.

Lemma dict_set_keys {V} (key : string) (value : V) (d : list (string * V))
    (k : string) :
  In k (List.map fst (dict_set key value d)) ->
  k = key \/ In k (List.map fst d).
Proof.
  induction d as [|[k0 v0] d IH]; simpl.
  - intros [<-|[]]. auto.
  - destruct (String.eqb k0 key) eqn:E; simpl.
    + apply String.eqb_eq in E. subst k0. intros [<-|H]; auto.
    + intros [<-|H]; auto. destruct (IH H); auto.
Qed.

Lemma dict_set_NoDup {V} (key : string) (value : V) (d : list (string * V)) :
  List.NoDup (List.map fst d) -> List.NoDup (List.map fst (dict_set key value d)).
Proof.
  induction d as [|[k v] d IH]; simpl; intros Hnd.
  - constructor; [intros []|constructor].
  - inversion Hnd as [|k' ks Hnotin Hrest]. subst.
    destruct (String.eqb k key) eqn:E; simpl.
    + apply String.eqb_eq in E. subst k. constructor; assumption.
    + apply String.eqb_neq in E. constructor; [|apply IH; exact Hrest].
      intros Hin. apply dict_set_keys in Hin as [Hk|Hin]; auto.
Qed.

Section CrawlResults.

Variable net : network.
Variables depth max_urls : Z.

Lemma visit_within_bound (u : string) (d : Z) (st : crawl_state) :
  len (results st) < max_urls ->
  within_bound max_urls st -> within_bound max_urls (snd (visit net u d st)).
Proof.
  intros Hlen [_ Hnd].
  destruct (visit_spec net u d st)
    as (links & st' & -> & _ & [Hres|(a & _ & Hres)] & _); simpl;
    unfold within_bound; rewrite Hres.
  - split; [lia | exact Hnd].
  - split; [|apply dict_set_NoDup; exact Hnd].
    unfold len in *. pose proof (dict_set_length u a (results st)). lia.
Qed.

Lemma visit_keyed_by_url (u : string) (d : Z) (st : crawl_state) :
  keyed_by_url st -> keyed_by_url (snd (visit net u d st)).
Proof.
  intros Hst.
  destruct (visit_spec net u d st)
    as (links & st' & -> & _ & [Hres|(a & Ha & Hres)] & _); simpl;
    unfold keyed_by_url; rewrite Hres; [exact Hst|].
  intros u' a' Hin. apply dict_set_In in Hin as [[= -> ->]|Hin]; auto.
Qed.

(** [scrape_all_links_and_content] returns what [crawl] leaves in
    [results]. *)
Lemma scrape_returns (start_url : string) (p : process) :
  exists st',
    crawl net depth max_urls (crawl_fuel depth) start_url 0
          {| visited := ∅; results := []; proc := p |} = (Ok tt, st') /\
    scrape_all_links_and_content net start_url depth max_urls p
    = (Ok (results st'), proc st').
Proof.
  unfold scrape_all_links_and_content.
  pose proof (crawl_returns net depth max_urls (crawl_fuel depth) start_url 0
                {| visited := ∅; results := []; proc := p |}) as Hret.
  destruct (crawl _ _ _ _ _ _ _) as [r st'].
  simpl in Hret. rewrite Hret; [|lia|unfold crawl_fuel; lia].
  exists st'. split; reflexivity.
Qed.

End CrawlResults.

(** C4: for a positive [max_urls], whatever the network does,
    [scrape_all_links_and_content] returns a dictionary of at most
    [max_urls] entries. *)
Theorem scrape_result_bounded (net : network) (start_url : string)
    (depth max_urls : Z) (p : process) :
  0 < max_urls ->
  exists res p',
    scrape_all_links_and_content net start_url depth max_urls p = (Ok res, p') /\
    List.NoDup (List.map fst res) /\
    len res <= max_urls.
Proof.
  intros Hmax.
  destruct (scrape_returns net depth max_urls start_url p) as (st' & Hrun & ->).
  exists (results st'), (proc st'). split; [reflexivity|].
  assert (Hinv : within_bound max_urls st').
  { change st' with (snd (Ok tt, st')). rewrite <- Hrun.
    apply crawl_preserves.
    - intros u d st _ Hlen _. apply visit_within_bound. exact Hlen.
    - lia.
    - split; simpl; [unfold len; simpl; lia | constructor]. }
  destruct Hinv. split; assumption.
Qed.

Lemma scrape_result_bounded_witness :
  exists res p',
    scrape_all_links_and_content
      (Sample.always (Response 200 Sample.music)) "seed" 2 1 start
    = (Ok res, p') /\
    List.NoDup (List.map fst res) /\
    len res <= 1.
Proof.
  apply (scrape_result_bounded
           (Sample.always (Response 200 Sample.music)) "seed" 2 1 start).
  lia.
Defined.

(** C10: in the dictionary returned by [scrape_all_links_and_content],
    the article stored under a key has that key as its [url]. *)
Theorem scrape_keys_are_urls (net : network) (start_url : string)
    (depth max_urls : Z) (p : process) :
  exists res p',
    scrape_all_links_and_content net start_url depth max_urls p = (Ok res, p') /\
    (forall u a, In (u, a) res -> a_url a = u) /\
    (forall u a, dict_get u res = Some a -> a_url a = u).
Proof.
  destruct (scrape_returns net depth max_urls start_url p) as (st' & Hrun & ->).
  exists (results st'), (proc st'). split; [reflexivity|].
  assert (Hinv : keyed_by_url st').
  { change st' with (snd (Ok tt, st')). rewrite <- Hrun.
    apply crawl_preserves.
    - intros u d st _ _ _. apply visit_keyed_by_url.
    - lia.
    - intros u a []. }
  split; [exact Hinv|].
  intros u a Hget. apply Hinv.
  clear -Hget. induction (results st') as [|[k v] d IH]; simpl in *;
    [discriminate|].
  destruct (String.eqb k u) eqn:E.
  - apply String.eqb_eq in E. injection Hget as ->. subst. left. reflexivity.
  - right. apply IH. exact Hget.
Qed.

(** ** The trace of a crawl *)

Lemma trace_ok_app (depth : Z) (evs1 evs2 : list event) :
  forall cur,
    trace_ok depth cur (evs1 ++ evs2)
    = trace_ok depth cur evs1 && trace_ok depth (activation cur evs1) evs2.
Proof.
  induction evs1 as [|e evs1 IH]; intros cur; simpl; [reflexivity|].
  destruct e as [|u0|[| | |u1 d1 n1|]]; simpl; rewrite IH;
    try reflexivity; rewrite andb_assoc; reflexivity.
Qed.

Lemma activation_app (evs1 evs2 : list event) :
  forall cur,
    activation cur (evs1 ++ evs2) = activation (activation cur evs1) evs2.
Proof.
  induction evs1 as [|e evs1 IH]; intros cur; simpl; [reflexivity|].
  destruct e as [|u0|[| | |u1 d1 n1|]]; simpl; apply IH.
Qed.

(** The events of a call on [u] are in order under the activation of [u]. *)
Lemma quiet_trace_ok (depth : Z) (u : string) (d : Z) (evs : list event) :
  quiet u evs = true -> trace_ok depth (Some (u, d)) evs = true.
Proof.
  unfold quiet. induction evs as [|e evs IH]; simpl; [reflexivity|].
  intros H. apply andb_true_iff in H as [He Hevs].
  destruct e as [|u'|[| | |u' d' n|]]; simpl; auto; [|discriminate].
  rewrite He. simpl. auto.
Qed.

Lemma trace_ok_crawling (depth : Z) (u : string) (d n : Z) (evs : list event) :
  forall cur,
    trace_ok depth cur evs = true ->
    In (Print (Crawling u d n)) evs -> 0 <= d <= depth.
Proof.
  induction evs as [|e evs IH]; intros cur Hok Hin; [destruct Hin|].
  destruct Hin as [->|Hin]; simpl in Hok.
  - apply andb_true_iff in Hok as [Hd _].
    apply andb_true_iff in Hd as [H0 Hd]. lia.
  - destruct e as [|u'|[| | |u' d' n'|]]; simpl in Hok; eauto.
    + apply andb_true_iff in Hok as [_ Hok]. eauto.
    + apply andb_true_iff in Hok as [_ Hok]. eauto.
Qed.

(** The running activation was announced by a [Crawling] line. *)
Lemma activation_announced (u : string) (d : Z) (evs : list event) :
  forall cur,
    activation cur evs = Some (u, d) ->
    cur = Some (u, d) \/ exists n, In (Print (Crawling u d n)) evs.
Proof.
  induction evs as [|e evs IH]; intros cur Hact; simpl in Hact; [auto|].
  destruct e as [|u'|[| | |u' d' n'|]];
    try (destruct (IH _ Hact) as [Hc|[n Hn]];
         [auto | right; exists n; right; exact Hn]).
  destruct (IH _ Hact) as [[= -> ->]|[n Hn]].
  - right. exists n'. left. reflexivity.
  - right. exists n. right. exact Hn.
Qed.

(** A request in a well-formed trace is for the URL of the activation
    that is running, whose depth is within the bound. *)
Lemma trace_ok_request (depth : Z) (pre post : list event) (u : string) :
  trace_ok depth None (pre ++ Get u :: post) = true ->
  exists d, activation None pre = Some (u, d) /\ 0 <= d <= depth.
Proof.
  intros Hok. rewrite trace_ok_app in Hok.
  apply andb_true_iff in Hok as [Hpre Hget]. simpl in Hget.
  destruct (activation None pre) as [[u' d]|] eqn:Hact; [|discriminate].
  apply andb_true_iff in Hget as [Hu _]. apply String.eqb_eq in Hu. subst u'.
  exists d. split; [reflexivity|].
  destruct (activation_announced _ _ _ _ Hact) as [|[n Hn]]; [discriminate|].
  eapply trace_ok_crawling; eauto.
Qed.

Section CrawlTrace.

Variable net : network.
Variables depth max_urls : Z.

Lemma visit_traced (t0 : list event) (u : string) (d : Z) (st : crawl_state) :
  0 <= d <= depth -> traced depth t0 st -> traced depth t0 (snd (visit net u d st)).
Proof.
  intros Hd (evs & Htr & Hok & Hvis).
  destruct (visit_spec net u d st)
    as (links & st' & -> & Hvisited & _ & evs1 & Htr1 & Hq); simpl.
  exists (evs ++ Print (Crawling u d (len (results st))) :: evs1)%list.
  split; [rewrite Htr1, Htr, <- app_assoc; reflexivity|]. split.
  - rewrite trace_ok_app, Hok. simpl.
    rewrite (quiet_trace_ok depth u d evs1 Hq).
    destruct Hd as [H0 Hd].
    apply Z.leb_le in H0. apply Z.leb_le in Hd. rewrite H0, Hd. reflexivity.
  - intros u' Hu'. rewrite Hvisited in Hu'.
    apply elem_of_union in Hu' as [Hu'|Hu'].
    + apply elem_of_singleton in Hu'. subst u'.
      exists d, (len (results st)). apply in_or_app. right. left. reflexivity.
    + destruct (Hvis u' Hu') as (d' & n' & Hin).
      exists d', n'. apply in_or_app. left. exact Hin.
Qed.

Lemma visit_grown_from (t0 : list event) (u : string) (d : Z) (st : crawl_state) :
  grown_from t0 st -> grown_from t0 (snd (visit net u d st)).
Proof.
  intros (evs & Htr).
  destruct (visit_spec net u d st)
    as (links & st' & -> & _ & _ & evs1 & Htr1 & _); simpl.
  eexists. rewrite Htr1, Htr, <- app_assoc. reflexivity.
Qed.

(** The first line of a crawl that visits anything announces the seed at
    depth [0]. *)
Lemma crawl_starts_at_seed (fuel : nat) (start_url : string) (st : crawl_state) :
  let st' := snd (crawl net depth max_urls fuel start_url 0 st) in
  trace (proc st') = trace (proc st) \/
  exists n evs,
    trace (proc st')
    = (trace (proc st) ++ Print (Crawling start_url 0 n) :: evs)%list.
Proof.
  destruct fuel as [|fuel]; [left; reflexivity|].
  rewrite crawl_unfold.
  destruct (stops depth max_urls start_url 0 st); [left; reflexivity|].
  right.
  destruct (visit_spec net start_url 0 st)
    as (links & st1 & -> & _ & _ & evs1 & Htr1 & _).
  assert (Hgrown : grown_from
            (trace (proc st) ++ [Print (Crawling start_url 0 (len (results st)))])
            (snd (for_each links (follow net depth max_urls fuel 0) st1))).
  { apply for_each_preserves.
    - intros link s Hs. unfold follow, bind, get_state.
      destruct (_ && _); [|exact Hs].
      apply crawl_preserves; [|lia|exact Hs].
      intros u d s0 _ _ _. apply visit_grown_from.
    - exists evs1. rewrite Htr1, <- app_assoc. reflexivity. }
  destruct Hgrown as (evs & Hevs).
  exists (len (results st)), evs. rewrite Hevs, <- app_assoc. reflexivity.
Qed.

End CrawlTrace.

(** C7: in a crawl, every URL that is marked visited is announced by a
    [Crawling] line; every such line carries a depth between [0] and
    [depth]; every request, for extraction or for link collection, is made
    for the URL of the activation announced last, at that depth; and the
    first line, if any, announces the seed at depth [0]. *)
Theorem crawl_depth_bounded (net : network) (start_url : string)
    (depth max_urls : Z) (p : process) :
  exists st' evs,
    scrape_final net start_url depth max_urls p = (Ok tt, st') /\
    scrape_all_links_and_content net start_url depth max_urls p
    = (Ok (results st'), proc st') /\
    trace (proc st') = (trace p ++ evs)%list /\
    (forall u, u ∈ visited st' ->
               exists d n, In (Print (Crawling u d n)) evs /\ 0 <= d <= depth) /\
    (forall u d n, In (Print (Crawling u d n)) evs -> 0 <= d <= depth) /\
    (forall pre u post,
        evs = (pre ++ Get u :: post)%list ->
        exists d, activation None pre = Some (u, d) /\ 0 <= d <= depth) /\
    (evs = [] \/ exists n evs', evs = Print (Crawling start_url 0 n) :: evs').
Proof.
  destruct (scrape_returns net depth max_urls start_url p) as (st' & Hrun & Hres).
  assert (Htraced : traced depth (trace p) st').
  { change st' with (snd (Ok tt, st')). rewrite <- Hrun.
    apply crawl_preserves.
    - intros u d st Hd _ _. apply visit_traced. exact Hd.
    - lia.
    - exists []. simpl. rewrite app_nil_r.
      split; [reflexivity|]. split; [reflexivity|].
      intros u Hu. apply not_elem_of_empty in Hu. destruct Hu. }
  destruct Htraced as (evs & Htr & Hok & Hvis).
  exists st', evs. split; [exact Hrun|]. split; [exact Hres|].
  split; [exact Htr|]. split; [|split; [|split]].
  - intros u Hu. destruct (Hvis u Hu) as (d & n & Hin).
    exists d, n. split; [exact Hin|]. eapply trace_ok_crawling; eauto.
  - intros u d n Hin. eapply trace_ok_crawling; eauto.
  - intros pre u post ->. apply trace_ok_request with (post := post). exact Hok.
  - pose proof (crawl_starts_at_seed net depth max_urls (crawl_fuel depth)
                  start_url {| visited := ∅; results := []; proc := p |}) as Hseed.
    rewrite Hrun in Hseed. simpl in Hseed. rewrite Htr in Hseed.
    destruct Hseed as [Hsame|(n & evs' & Hfirst)].
    + left. rewrite <- (app_nil_r (trace p)) in Hsame at 2.
      apply app_inv_head in Hsame. exact Hsame.
    + right. exists n, evs'. apply app_inv_head in Hfirst. exact Hfirst.
Qed.

(* ===================================================================== *)
(** * The report writer *)
(* ===================================================================== *)

Lemma silent_file_write (filename text : string) :
  silent (file_write filename text).
Proof. intros p. split; reflexivity. Qed.

Lemma silent_seq (c k : M process unit) :
  silent c -> silent k -> silent (c ;;; k).
Proof.
  intros Hc Hk p. unfold bind. destruct (Hc p) as [Hr Ht].
  destruct (c p) as [[[]|e] p1]; simpl in *; [|discriminate].
  destruct (Hk p1) as [Hr1 Ht1]. split; congruence.
Qed.

Lemma silent_for_each {A} (l : list A) (body : A -> M process unit) :
  (forall x, silent (body x)) -> silent (for_each l body).
Proof.
  intros Hbody. induction l as [|x l IH]; simpl.
  - intros p. split; reflexivity.
  - apply silent_seq; [apply Hbody | exact IH].
Qed.

Lemma silent_write_article (filename : string) (entry : string * article) :
  silent (write_article filename entry).
Proof.
  destruct entry as [url article]. unfold write_article.
  repeat (apply silent_seq; [apply silent_file_write|]).
  apply silent_seq; [|apply silent_file_write].
  apply silent_for_each. intros section.
  apply silent_seq; [apply silent_file_write|].
  apply silent_seq; [|apply silent_file_write].
  apply silent_for_each. intros paragraph. apply silent_file_write.
Qed.

(** The writer hands back [None], not the number of articles. *)
Lemma save_results_returns_none :
  fst (save_results_to_txt Sample.fs_ok Sample.one_article "out.txt" start)
  = Ok PyNone /\
  len Sample.one_article = 1 /\
  fst (save_results_to_txt Sample.fs_ok Sample.one_article "out.txt" start)
  <> Ok (PyInt (len Sample.one_article)).
Proof. repeat split. discriminate. Qed.

(** C8, amended: [save_results_to_txt] has no return value, it returns
    [None]; when the directory can be made and the file opened, it reports
    the number of entries of the mapping by printing it in its last line,
    [Saved n articles to filename]. *)
Theorem save_results_reports_count (fs : filesystem)
    (data : list (string * article)) (filename : string) (p : process) :
  OsPath.dirname filename = EmptyString
  \/ fs (MakeDirs (OsPath.dirname filename)) = true ->
  fs (OpenWrite filename) = true ->
  exists p',
    save_results_to_txt fs data filename p = (Ok PyNone, p') /\
    trace p' = (trace p ++ [Print (Saved (len data) filename)])%list.
Proof.
  intros Hdir Hopen. unfold save_results_to_txt.
  assert (Hfirst :
            (if PyStr.truthy (OsPath.dirname filename)
             then makedirs fs (OsPath.dirname filename) else ret tt) p
            = (Ok tt, p)).
  { destruct Hdir as [->|Hmk]; [reflexivity|].
    destruct (PyStr.truthy _); [|reflexivity].
    unfold makedirs. rewrite Hmk. reflexivity. }
  unfold bind at 1. rewrite Hfirst.
  unfold bind at 1. unfold open_w. rewrite Hopen.
  unfold bind at 1.
  destruct (silent_for_each data (write_article filename)
              (silent_write_article filename)
              (set_file filename EmptyString p)) as [Hr Ht].
  destruct (for_each data (write_article filename) _) as [r p1].
  simpl in Hr, Ht. subst r.
  run_process. eexists. split; [reflexivity|]. simpl. rewrite Ht. reflexivity.
Qed.

Lemma save_results_reports_count_witness :
  exists p',
    save_results_to_txt Sample.fs_ok Sample.one_article "out/report.txt" start
    = (Ok PyNone, p') /\
    trace p' = [Print (Saved 1 "out/report.txt")].
Proof.
  apply (save_results_reports_count
           Sample.fs_ok Sample.one_article "out/report.txt" start).
  - right. reflexivity.
  - reflexivity.
Defined.

(* ===================================================================== *)
(** * More on the link collector *)
(* ===================================================================== *)

(** The links returned are the outbound hrefs of the page, made absolute;
    a failed fetch has none. *)
Lemma get_all_links_outbound (net : network) (url : string) (p : process) :
  fst (get_all_links net url p)
  = Ok (List.map (fun href => base_origin +:+ href)
                 (outbound (net (requests p) url))).
Proof.
  unfold get_all_links. run_process.
  destruct (net (requests p) url) as [| |status soup]; simpl;
    try reflexivity.
  rewrite full_links_map_filter by apply find_all_href_has_href.
  reflexivity.
Qed.

Lemma hrefs_In (links : list node) (h : string) :
  In h (hrefs links) -> exists link, In link links /\ Dom.attr "href" link = Some h.
Proof.
  unfold hrefs. induction links as [|link links IH]; simpl; [intros []|].
  destruct (Dom.attr "href" link) as [h'|] eqn:E; simpl.
  - intros [<-|Hin]; [exists link; auto|].
    destruct (IH Hin) as (l & Hl & Hh). exists l. auto.
  - intros Hin. destruct (IH Hin) as (l & Hl & Hh). exists l. auto.
Qed.

Lemma outbound_on_site (r : fetch_result) (href : string) :
  In href (outbound r) -> on_site (base_origin +:+ href).
Proof.
  destruct r as [| |status soup]; simpl; try (intros []).
  intros Hin. apply List.filter_In in Hin as [Hin Hvalid].
  apply hrefs_In in Hin as (link & Hlink & Hattr).
  unfold Dom.find_all_href in Hlink.
  apply List.filter_In in Hlink as [_ Hok].
  rewrite Hattr in Hok. apply andb_true_iff in Hok as [_ Hpre].
  exists href. auto.
Qed.

(** X1: when the fetch ends in a timeout or a connection error,
    [get_all_links] returns the empty list after one diagnostic line, and
    raises nothing. *)
Theorem get_all_links_transport_failure (net : network) (url : string)
    (p : process) :
  net (requests p) url = Timeout \/ net (requests p) url = ConnectionFailed ->
  exists e p',
    get_all_links net url p = (Ok [], p') /\
    trace p' = (trace p ++ [Get url; Print (ErrorFetchingLinks url e)])%list.
Proof.
  intros [Hnet|Hnet]; unfold get_all_links; run_process; rewrite Hnet; simpl.
  - exists TimeoutError. eexists. split; [reflexivity|].
    simpl. rewrite <- !app_assoc. reflexivity.
  - exists ConnectionError. eexists. split; [reflexivity|].
    simpl. rewrite <- !app_assoc. reflexivity.
Qed.

Lemma get_all_links_transport_failure_witness :
  exists e p',
    get_all_links (Sample.always ConnectionFailed) "u" start = (Ok [], p') /\
    trace p' = [Get "u"; Print (ErrorFetchingLinks "u" e)].
Proof.
  apply (get_all_links_transport_failure
           (Sample.always ConnectionFailed) "u" start).
  right. reflexivity.
Defined.

(** X2: whatever the network answers, every link that [get_all_links]
    returns is the site's origin followed by an href that starts with
    [/wiki/] and that the classifier accepts. *)
Theorem get_all_links_on_site (net : network) (url : string) (p : process) :
  exists links p',
    get_all_links net url p = (Ok links, p') /\
    Forall on_site links.
Proof.
  destruct (get_all_links_cases net url p) as (links & p' & Hrun & _).
  exists links, p'. split; [exact Hrun|].
  pose proof (get_all_links_outbound net url p) as Hout.
  rewrite Hrun in Hout. simpl in Hout. injection Hout as ->.
  apply List.Forall_forall. intros u Hin.
  apply List.in_map_iff in Hin as (href & <- & Hin).
  eapply outbound_on_site. exact Hin.
Qed.

(* ===================================================================== *)
(** * More on the content extractor *)
(* ===================================================================== *)

Lemma string_app_nil_r (s : string) : s +:+ EmptyString = s.
Proof.
  induction s as [|c s IH]; [reflexivity|].
  change (String c (s +:+ EmptyString) = String c s). rewrite IH. reflexivity.
Qed.

Lemma string_app_assoc (s1 s2 s3 : string) :
  (s1 +:+ s2) +:+ s3 = s1 +:+ (s2 +:+ s3).
Proof.
  induction s1 as [|c s1 IH]; [reflexivity|].
  change (String c ((s1 +:+ s2) +:+ s3) = String c (s1 +:+ (s2 +:+ s3))).
  rewrite IH. reflexivity.
Qed.

(** An article that is returned comes from a response with a content
    container, whose children the loop has walked to the end. *)
Lemma extract_some_inv (net : network) (url : string) (p : process)
    (a : article) :
  fst (extract_article_content net url p) = Ok (Some a) ->
  exists status soup content_div acc h cc,
    net (requests p) url = Response status soup /\
    Dom.find_by_class "div" "mw-parser-output" soup = Some content_div /\
    sections_loop (Dom.children content_div) [] (page_title soup) []
      = Ok (acc, h, cc) /\
    a = mkArticle url (page_title soup) (close_sections acc h cc).
Proof.
  unfold extract_article_content, extract_article_content_body.
  run_process.
  destruct (net (requests p) url) as [| |status soup] eqn:Hnet; simpl;
    try discriminate.
  fold (page_title soup).
  destruct (Dom.find_by_class "div" "mw-parser-output" soup)
    as [content_div|] eqn:Hdiv; simpl; [|discriminate].
  destruct (sections_loop _ _ _ _) as [[[acc h] cc]|e] eqn:Hloop; simpl;
    [|discriminate].
  fold (close_sections acc h cc).
  destruct (nonempty (close_sections acc h cc)); simpl; [|discriminate].
  intros [= <-]. exists status, soup, content_div, acc, h, cc. auto.
Qed.

(** X3: when the document has no content container, the extractor returns
    [None] without a diagnostic: the trace gains the pause and the request
    only. *)
Theorem extract_missing_container (net : network) (url : string) (p : process)
    (status : Z) (soup : list node) :
  net (requests p) url = Response status soup ->
  Dom.find_by_class "div" "mw-parser-output" soup = None ->
  exists p',
    extract_article_content net url p = (Ok None, p') /\
    trace p' = (trace p ++ [Sleep; Get url])%list.
Proof.
  intros Hnet Hdiv.
  unfold extract_article_content, extract_article_content_body.
  run_process. rewrite Hnet. simpl. rewrite Hdiv. simpl.
  eexists. split; [reflexivity|]. simpl. rewrite <- !app_assoc. reflexivity.
Qed.

Lemma extract_missing_container_witness :
  exists p',
    extract_article_content
      (Sample.always (Response 200 Fixture.bare_page)) "u" start = (Ok None, p') /\
    trace p' = [Sleep; Get "u"].
Proof.
  apply (extract_missing_container
           (Sample.always (Response 200 Fixture.bare_page)) "u" start 200
           Fixture.bare_page);
    reflexivity.
Defined.

Lemma sections_loop_nonblank (elements : list node) :
  forall acc h cc acc' h' cc',
    sections_loop elements acc h cc = Ok (acc', h', cc') ->
    Forall (fun s => Forall nonblank (content s)) acc ->
    Forall nonblank cc ->
    Forall (fun s => Forall nonblank (content s)) acc' /\ Forall nonblank cc'.
Proof.
  induction elements as [|element rest IH]; simpl;
    intros acc h cc acc' h' cc' Hrun Hacc Hcc.
  - inversion Hrun. subst. auto.
  - destruct (Dom.name_in heading_names element).
    + destruct cc as [|c cc]; simpl in Hrun.
      * eapply IH; eauto.
      * eapply IH; [exact Hrun| |constructor].
        apply Forall_app. split; [exact Hacc|].
        constructor; [exact Hcc|constructor].
    + destruct (extract_text element) as [text|e]; [|discriminate].
      destruct (PyStr.truthy (PyStr.strip text)) eqn:Htext.
      * eapply IH; [exact Hrun|exact Hacc|].
        apply Forall_app. split; [exact Hcc|].
        constructor; [|constructor]. apply truthy_true. exact Htext.
      * eapply IH; eauto.
Qed.

(** X4: in every article that [extract_article_content] returns, every
    paragraph entry of every section still has text after stripping. *)
Theorem extract_entries_nonblank (net : network) (url : string) (p : process)
    (a : article) :
  fst (extract_article_content net url p) = Ok (Some a) ->
  Forall (fun s => Forall (fun text => PyStr.strip text <> EmptyString)
                          (content s))
         (a_content a).
Proof.
  intros Hrun.
  destruct (extract_some_inv net url p a Hrun)
    as (status & soup & div & acc & h & cc & _ & _ & Hloop & ->).
  destruct (sections_loop_nonblank _ _ _ _ _ _ _ Hloop) as [Hacc Hcc];
    [constructor | constructor |].
  simpl. unfold close_sections.
  destruct (nonempty cc); [|exact Hacc].
  apply Forall_app. split; [exact Hacc|].
  constructor; [exact Hcc|constructor].
Qed.

Lemma extract_entries_nonblank_witness :
  Forall (fun s => Forall (fun text => PyStr.strip text <> EmptyString)
                          (content s))
         [mkSect "Music" ["Lead."]; mkSect "History" ["Past."]].
Proof.
  apply (extract_entries_nonblank
           (Sample.always (Response 200 Fixture.lead_page)) "u" start
           (mkArticle "u" "Music"
              [mkSect "Music" ["Lead."]; mkSect "History" ["Past."]])).
  reflexivity.
Defined.

(** The loop only adds sections after those it was given. *)
Lemma sections_loop_extends (elements : list node) :
  forall acc h cc acc' h' cc',
    sections_loop elements acc h cc = Ok (acc', h', cc') ->
    exists new, acc' = (acc ++ new)%list.
Proof.
  induction elements as [|element rest IH]; simpl;
    intros acc h cc acc' h' cc' Hrun.
  - inversion Hrun. subst. exists []. rewrite app_nil_r. reflexivity.
  - destruct (Dom.name_in heading_names element).
    + destruct cc as [|c cc]; simpl in Hrun.
      * eapply IH; eauto.
      * destruct (IH _ _ _ _ _ _ Hrun) as [new ->].
        eexists. rewrite <- app_assoc. reflexivity.
    + destruct (extract_text element) as [text|e]; [|discriminate].
      destruct (PyStr.truthy (PyStr.strip text)); eapply IH; eauto.
Qed.

(** Content gathered under a heading ends up in a section with that
    heading, first among the sections still to come. *)
Lemma sections_loop_open_section (elements : list node) :
  forall acc h c cc acc' h' cc',
    sections_loop elements acc h (c :: cc) = Ok (acc', h', cc') ->
    (acc' = acc /\ h' = h /\ exists more, cc' = (c :: cc ++ more)%list) \/
    (exists more tl, acc' = (acc ++ mkSect h (c :: cc ++ more) :: tl)%list).
Proof.
  induction elements as [|element rest IH]; simpl;
    intros acc h c cc acc' h' cc' Hrun.
  - inversion Hrun. subst. left. repeat split.
    exists []. rewrite app_nil_r. reflexivity.
  - destruct (Dom.name_in heading_names element).
    + simpl in Hrun. right.
      destruct (sections_loop_extends _ _ _ _ _ _ _ Hrun) as [new ->].
      exists [], new. rewrite app_nil_r, <- app_assoc. reflexivity.
    + destruct (extract_text element) as [text|e]; [|discriminate].
      destruct (PyStr.truthy (PyStr.strip text)).
      * change ((c :: cc) ++ [text])%list with (c :: (cc ++ [text]))%list in Hrun.
        destruct (IH _ _ _ _ _ _ _ Hrun)
          as [(-> & -> & more & ->)|(more & tl & ->)].
        -- left. repeat split. exists (text :: more).
           rewrite <- app_assoc. reflexivity.
        -- right. exists (text :: more), tl.
           rewrite <- app_assoc. reflexivity.
      * eapply IH; eauto.
Qed.

(** X5: when the content container starts with a paragraph that has text,
    the first section of the article returned carries the article's title
    as its heading, and starts with that paragraph. *)
Theorem extract_leading_section (net : network) (url : string) (p : process)
    (status : Z) (soup : list node) (content_div first : node)
    (rest : list node) (a : article) :
  net (requests p) url = Response status soup ->
  Dom.find_by_class "div" "mw-parser-output" soup = Some content_div ->
  Dom.children content_div = first :: rest ->
  Dom.name_is "p" first = true ->
  PyStr.strip (Dom.get_text true first) <> EmptyString ->
  fst (extract_article_content net url p) = Ok (Some a) ->
  exists more tl,
    a_content a = mkSect (a_title a) (Dom.get_text true first :: more) :: tl.
Proof.
  intros Hnet Hdiv Hch Hp Htext Hrun.
  destruct (extract_some_inv net url p a Hrun)
    as (status' & soup' & div' & acc & h & cc & Hnet' & Hdiv' & Hloop & ->).
  rewrite Hnet in Hnet'. injection Hnet' as <- <-.
  rewrite Hdiv in Hdiv'. injection Hdiv' as <-.
  rewrite Hch in Hloop. simpl in Hloop.
  destruct (paragraph_is_no_heading first Hp) as [Hnoh Hex].
  apply truthy_true in Htext. rewrite Hnoh, Hex, Htext in Hloop.
  simpl in Hloop.
  destruct (sections_loop_open_section _ _ _ _ _ _ _ _ Hloop)
    as [(-> & -> & more & ->)|(more & tl & ->)]; simpl.
  - exists more, []. reflexivity.
  - unfold close_sections. exists more.
    destruct (nonempty cc); simpl; eexists; reflexivity.
Qed.

Lemma extract_leading_section_witness :
  exists more tl,
    [mkSect "Music" ["Lead."]; mkSect "History" ["Past."]]
    = mkSect "Music" ("Lead." :: more) :: tl.
Proof.
  apply (extract_leading_section
           (Sample.always (Response 200 Fixture.lead_page)) "u" start 200
           Fixture.lead_page
           (Sample.content_div
              [Sample.para "Lead."; Sample.h2 "History"; Sample.para "Past."])
           (Sample.para "Lead.")
           [Sample.h2 "History"; Sample.para "Past."]
           (mkArticle "u" "Music"
              [mkSect "Music" ["Lead."]; mkSect "History" ["Past."]]));
    try reflexivity.
  vm_compute. discriminate.
Defined.

Lemma descendants_element (nm : string) (attrs : gmap string string)
    (cl : list string) (ch : list node) :
  Dom.descendants (Element nm attrs cl ch)
  = flat_map Dom.self_and_descendants ch.
Proof.
  unfold Dom.descendants. simpl.
  induction ch as [|c ch IH]; [reflexivity|]. simpl. rewrite IH. reflexivity.
Qed.

Lemma get_text_flat_item (attrs : gmap string string) (cl : list string)
    (text : string) :
  Dom.get_text true (Element "li" attrs cl [Text text]) = PyStr.strip text.
Proof.
  unfold Dom.get_text.
  change (Dom.strings (Element "li" attrs cl [Text text])) with [text].
  cbn [List.map List.filter].
  destruct (PyStr.strip text) as [|c s]; [reflexivity|].
  cbn [PyStr.truthy PyStr.concat]. apply string_app_nil_r.
Qed.

Lemma flat_items_text (items : list node) (texts : list string) :
  Forall2 flat_item items texts ->
  List.map (fun li => "- " +:+ Dom.get_text true li) items
  = List.map (fun text => "- " +:+ PyStr.strip text) texts.
Proof.
  induction 1 as [|item text items texts (attrs & cl & ->) _ IH];
    [reflexivity|].
  cbn [List.map]. rewrite IH, get_text_flat_item. reflexivity.
Qed.

(** Among the descendants of a list whose items each hold one string,
    the [li] tags are the tags among its children. *)
Lemma flat_items_find_all (children : list node) :
  forall texts,
    Forall2 flat_item (List.filter Dom.is_tag children) texts ->
    List.filter (Dom.name_is "li") (flat_map Dom.self_and_descendants children)
    = List.filter Dom.is_tag children.
Proof.
  induction children as [|child children IH]; intros texts Hitems;
    [reflexivity|].
  destruct child as [s|cls s|nm attrs cl ch].
  - exact (IH texts Hitems).
  - exact (IH texts Hitems).
  - change (List.filter Dom.is_tag (Element nm attrs cl ch :: children))
      with (Element nm attrs cl ch :: List.filter Dom.is_tag children) in *.
    inversion Hitems as [|item text items texts' (attrs' & cl' & Hitem) Hrest];
      subst.
    injection Hitem as -> -> -> ->.
    change (List.filter (Dom.name_is "li")
              (Element "li" attrs' cl' [Text text]
               :: Text text :: flat_map Dom.self_and_descendants children)
            = Element "li" attrs' cl' [Text text]
              :: List.filter Dom.is_tag children).
    cbn [List.filter].
    change (Dom.name_is "li" (Element "li" attrs' cl' [Text text])) with true.
    change (Dom.name_is "li" (Text text)) with false.
    cbv iota. f_equal. exact (IH texts' Hrest).
Qed.

Lemma rstrip_keeps_first (c : ascii) (s : string) :
  PyStr.all_space (String c s) = false ->
  PyStr.rstrip (String c s) <> EmptyString.
Proof. intros H. simpl. rewrite H. discriminate. Qed.

Lemma strip_dash (s : string) : PyStr.strip ("- " +:+ s) <> EmptyString.
Proof.
  unfold PyStr.strip.
  change ("- " +:+ s) with (String "-" (String " " s)).
  assert (Hl : PyStr.lstrip (String "-" (String " " s))
               = String "-" (String " " s)).
  { destruct s; reflexivity. }
  rewrite Hl. apply rstrip_keeps_first.
  unfold PyStr.all_space. rewrite Hl. reflexivity.
Qed.

(** X6: a list whose items each hold one string, with or without
    strings (such as line breaks) between the items, is rendered as one
    text: the stripped items, each after a dash and a space, joined by
    newlines; with at least one item this text is not blank, so the list
    gives a paragraph entry. *)
Theorem extract_text_flat_list (attrs : gmap string string) (cl : list string)
    (children : list node) (texts : list string) :
  Forall2 flat_item (List.filter Dom.is_tag children) texts ->
  extract_text (Element "ul" attrs cl children)
  = Ok (PyStr.join nl (List.map (fun text => "- " +:+ PyStr.strip text) texts))
  /\ (texts <> [] ->
      PyStr.strip
        (PyStr.join nl (List.map (fun text => "- " +:+ PyStr.strip text) texts))
      <> EmptyString).
Proof.
  intros Hitems. split.
  - simpl. unfold Dom.find_all.
    rewrite descendants_element, (flat_items_find_all children texts Hitems).
    do 2 f_equal. exact (flat_items_text _ _ Hitems).
  - intros Hne. destruct texts as [|t [|t' texts]]; [congruence| |]; simpl.
    + apply strip_dash.
    + change (("- " +:+ PyStr.strip t) +:+ ?x)
        with ("- " +:+ (PyStr.strip t +:+ x)).
      apply strip_dash.
Qed.

Lemma extract_text_flat_list_witness :
  extract_text Fixture.three_items
  = Ok (PyStr.join nl ["- one"; "- two"; "- three"]) /\
  (["one"; " two "; "three"] <> [] ->
   PyStr.strip (PyStr.join nl ["- one"; "- two"; "- three"]) <> EmptyString).
Proof.
  apply (extract_text_flat_list ∅ []
           [Text nl; Fixture.li "one"; Text nl; Fixture.li " two ";
            Fixture.li "three"]
           ["one"; " two "; "three"]).
  repeat constructor; exists ∅, []; reflexivity.
Defined.

(* ===================================================================== *)
(** * More on the crawl controller *)
(* ===================================================================== *)

(** A loop keeps what each round on one of its elements keeps. *)
Lemma for_each_preserves_in {S A} (I : S -> Prop) (body : A -> M S unit)
    (l : list A) :
  (forall x s, In x l -> I s -> I (snd (body x s))) ->
  forall s, I s -> I (snd (for_each l body s)).
Proof.
  induction l as [|x l IH]; intros Hbody s Hs; simpl; [exact Hs|].
  unfold bind. pose proof (Hbody x s (or_introl eq_refl) Hs) as Hx.
  destruct (body x s) as [[[]|e] s']; simpl in *; [|exact Hx].
  apply IH; [|exact Hx]. intros y s0 Hy. apply Hbody. right. exact Hy.
Qed.

(** The events of the extractor: quiet, with one request. *)
Lemma extract_article_content_events (net : network) (url : string)
    (p : process) :
  exists v p' evs,
    extract_article_content net url p = (Ok v, p') /\
    trace p' = (trace p ++ evs)%list /\
    quiet url evs = true /\
    requested evs = [url] /\
    announced evs = [] /\
    requests p' = S (requests p) /\
    files p' = files p /\
    (forall a, v = Some a -> a_url a = url).
Proof.
  unfold extract_article_content, extract_article_content_body.
  run_process.
  assert (Hq : String.eqb url url = true) by apply String.eqb_refl.
  destruct (net (requests p) url) as [| |status soup]; simpl.
  1, 2: eexists _, _, _; split; [reflexivity|]; simpl;
    split; [rewrite <- !app_assoc; reflexivity|];
    simpl; rewrite Hq; repeat split; discriminate.
  destruct (Dom.find_by_class "div" "mw-parser-output" soup) as [div|]; simpl.
  2: { eexists _, _, _; split; [reflexivity|]; simpl.
       split; [rewrite <- !app_assoc; reflexivity|].
       simpl; rewrite Hq; repeat split; discriminate. }
  destruct (sections_loop _ _ _ _) as [[[acc h] cc]|e]; simpl.
  2: { eexists _, _, _; split; [reflexivity|]; simpl.
       split; [rewrite <- !app_assoc; reflexivity|].
       simpl; rewrite Hq; repeat split; discriminate. }
  destruct (nonempty (if nonempty cc then _ else _)); simpl.
  - eexists _, _, _; split; [reflexivity|]; simpl.
    split; [rewrite <- !app_assoc; reflexivity|].
    simpl; rewrite Hq. repeat split. intros a [= <-]. reflexivity.
  - eexists _, _, _; split; [reflexivity|]; simpl.
    split; [rewrite <- !app_assoc; reflexivity|].
    simpl; rewrite Hq; repeat split; discriminate.
Qed.

(** The events of the link collector: quiet, with one request. *)
Lemma get_all_links_events (net : network) (url : string) (p : process) :
  exists p' evs,
    get_all_links net url p
    = (Ok (List.map (fun href => base_origin +:+ href)
                    (outbound (net (requests p) url))), p') /\
    trace p' = (trace p ++ evs)%list /\
    quiet url evs = true /\
    requested evs = [url] /\
    announced evs = [] /\
    requests p' = S (requests p) /\
    files p' = files p.
Proof.
  unfold get_all_links. run_process.
  assert (Hq : String.eqb url url = true) by apply String.eqb_refl.
  destruct (net (requests p) url) as [| |status soup]; simpl.
  1, 2: eexists _, _; split; [reflexivity|]; simpl;
    split; [rewrite <- !app_assoc; reflexivity|];
    simpl; rewrite Hq; repeat split.
  rewrite full_links_map_filter by apply find_all_href_has_href.
  eexists _, _; split; [reflexivity|]; simpl.
  split; [reflexivity|]. simpl. rewrite Hq. repeat split.
Qed.

Lemma requested_app (evs1 evs2 : list event) :
  requested (evs1 ++ evs2) = (requested evs1 ++ requested evs2)%list.
Proof.
  induction evs1 as [|e evs1 IH]; [reflexivity|].
  destruct e as [|u|line]; simpl; rewrite IH; reflexivity.
Qed.

Lemma announced_app (evs1 evs2 : list event) :
  announced (evs1 ++ evs2) = (announced evs1 ++ announced evs2)%list.
Proof.
  induction evs1 as [|e evs1 IH]; [reflexivity|].
  destruct e as [|u|[| | |u d n|]]; simpl; rewrite IH; reflexivity.
Qed.

Lemma requested_In (evs : list event) (u : string) :
  In (Get u) evs <-> In u (requested evs).
Proof.
  induction evs as [|e evs IH]; simpl; [tauto|].
  destruct e as [|u'|line]; simpl; rewrite <- IH; split;
    try (intros [H|H]; [discriminate|exact H]); auto.
  - intros [[= ->]|H]; auto.
  - intros [->|H]; auto.
Qed.

(** What [visit] does, in full. *)
Lemma visit_detail (net : network) (u : string) (d : Z) (st : crawl_state) :
  exists v st' evs,
    visit net u d st
    = (Ok (List.map (fun href => base_origin +:+ href)
                    (outbound (net (S (requests (proc st))) u))), st') /\
    visited st' = {[u]} ∪ visited st /\
    results st' = match v with
                  | Some a => dict_set u a (results st)
                  | None => results st
                  end /\
    (forall a, v = Some a -> a_url a = u) /\
    trace (proc st')
    = (trace (proc st) ++ Print (Crawling u d (len (results st))) :: evs)%list /\
    quiet u evs = true /\
    requested evs = [u; u] /\
    announced evs = [] /\
    requests (proc st') = S (S (requests (proc st))) /\
    files (proc st') = files (proc st).
Proof.
  unfold visit, bind, get_state, visited_add, io, print, emit, ret. simpl.
  match goal with |- context [extract_article_content net u ?q] =>
    destruct (extract_article_content_events net u q)
      as (v & p1 & evs1 & -> & Htr1 & Hq1 & Hr1 & Ha1 & Hn1 & Hf1 & Hart)
  end.
  simpl in Htr1, Hn1, Hf1.
  destruct (get_all_links_events net u p1)
    as (p2 & evs2 & Hrun2 & Htr2 & Hq2 & Hr2 & Ha2 & Hn2 & Hf2).
  rewrite Hn1 in Hrun2.
  exists v. destruct v as [a|]; simpl; unfold results_set; simpl;
    rewrite Hrun2; eexists _, (evs1 ++ evs2)%list;
    (split; [reflexivity|]); simpl;
    (split; [reflexivity|]); (split; [reflexivity|]);
    (split; [exact Hart|]);
    (split; [rewrite Htr2, Htr1, <- !app_assoc; reflexivity|]);
    (split; [unfold quiet in *; rewrite forallb_app, Hq1, Hq2; reflexivity|]);
    (split; [rewrite requested_app, Hr1, Hr2; reflexivity|]);
    (split; [rewrite announced_app, Ha1, Ha2; reflexivity|]);
    (split; [rewrite Hn2, Hn1; reflexivity|]);
    rewrite Hf2, Hf1; reflexivity.
Qed.

Section CrawlFrom.

Variable net : network.
Variables depth max_urls : Z.

(** An invariant of the visits of the URLs that can be reached is an
    invariant of the crawl. *)
Lemma crawl_preserves_from (P : string -> Prop) (I : crawl_state -> Prop) :
  (forall r href, In href (outbound r) -> P (base_origin +:+ href)) ->
  (forall u d st,
      P u -> 0 <= d <= depth -> len (results st) < max_urls ->
      u ∉ visited st -> I st -> I (snd (visit net u d st))) ->
  forall fuel u d st,
    P u -> 0 <= d -> I st -> I (snd (crawl net depth max_urls fuel u d st)).
Proof.
  intros Hlinks Hvisit. induction fuel as [|fuel IH]; intros u d st Hu Hd Hst.
  - exact Hst.
  - rewrite crawl_unfold.
    destruct (stops depth max_urls u d st) eqn:Hstop; [exact Hst|].
    apply stops_false in Hstop as (Hlen & Hdepth & Hnew).
    specialize (Hvisit u d st Hu (conj Hd Hdepth) Hlen Hnew Hst).
    destruct (visit_detail net u d st) as (v & st1 & evs & Hrun & _).
    rewrite Hrun in *. simpl in Hvisit.
    apply for_each_preserves_in; [|exact Hvisit].
    intros link s Hin Hs. unfold follow, bind, get_state.
    destruct (_ && _); [|exact Hs].
    apply List.in_map_iff in Hin as (href & <- & Hin).
    apply IH; [eapply Hlinks; exact Hin | lia | exact Hs].
Qed.

End CrawlFrom.

Lemma NoDup_snoc {A} (l : list A) (x : A) :
  List.NoDup l -> ~ In x l -> List.NoDup (l ++ [x]).
Proof.
  induction 1 as [|y l Hy Hl IH]; simpl; intros Hx.
  - constructor; [intros []|constructor].
  - constructor.
    + intros Hin. apply in_app_or in Hin as [Hin|[<-|[]]]; auto.
    + apply IH. auto.
Qed.

(** On a key that is not there, [dict_set] adds at the end. *)
Lemma dict_set_fresh {V} (key : string) (value : V) (d : list (string * V)) :
  ~ In key (List.map fst d) -> dict_set key value d = (d ++ [(key, value)])%list.
Proof.
  induction d as [|[k v] d IH]; simpl; intros Hnew; [reflexivity|].
  destruct (String.eqb k key) eqn:E.
  - apply String.eqb_eq in E. exfalso. auto.
  - rewrite IH by auto. reflexivity.
Qed.

Lemma visit_crawl_inv (net : network) (p0 : process) (seed : string)
    (u : string) (d : Z) (st : crawl_state) :
  seed = u \/ on_site u ->
  u ∉ visited st ->
  crawl_inv p0 seed st -> crawl_inv p0 seed (snd (visit net u d st)).
Proof.
  intros Hu Hnew (evs & Htr & Hnd & Hvis & Hsub & Hreq & Hget & Hfiles & Hall).
  destruct (visit_detail net u d st)
    as (v & st' & evs1 & -> & Hvisited & Hres & _ & Htr1 & _ & Hget1 & Hann1
        & Hreq1 & Hfiles1).
  simpl.
  assert (Hfresh : ~ In u (announced evs)).
  { intros Hin. apply Hnew, Hvis, Hin. }
  exists (evs ++ Print (Crawling u d (len (results st))) :: evs1)%list.
  assert (Hann : announced (evs ++ Print (Crawling u d (len (results st))) :: evs1)
                 = (announced evs ++ [u])%list).
  { rewrite announced_app. simpl. rewrite Hann1. reflexivity. }
  rewrite Hann.
  split; [rewrite Htr1, Htr, <- app_assoc; reflexivity|].
  split; [apply NoDup_snoc; assumption|].
  split.
  { intros u'. rewrite Hvisited, elem_of_union, elem_of_singleton, Hvis.
    rewrite in_app_iff. simpl. intuition. }
  split.
  { rewrite Hres. destruct v as [a|].
    - rewrite dict_set_fresh.
      + rewrite List.map_app. simpl. apply sublist_app; [exact Hsub|reflexivity].
      + intros Hin. apply Hfresh.
        apply list_elem_of_In. eapply elem_of_sublist; [|exact Hsub].
        apply list_elem_of_In. exact Hin.
    - apply sublist_inserts_r. exact Hsub. }
  split; [rewrite Hreq1, Hreq, length_app; simpl; lia|].
  split.
  { rewrite requested_app, Hget. simpl. rewrite Hget1.
    rewrite flat_map_app. reflexivity. }
  split; [rewrite Hfiles1; exact Hfiles|].
  apply Forall_app. split; [exact Hall|].
  constructor; [|constructor]. destruct Hu as [->|Hu]; auto.
Qed.

(** The crawl of [scrape_all_links_and_content] returns, and its
    invariant holds at the end. *)
Lemma scrape_crawl_inv (net : network) (start_url : string)
    (depth max_urls : Z) (p : process) :
  exists st',
    scrape_final net start_url depth max_urls p = (Ok tt, st') /\
    scrape_all_links_and_content net start_url depth max_urls p
    = (Ok (results st'), proc st') /\
    crawl_inv p start_url st'.
Proof.
  destruct (scrape_returns net depth max_urls start_url p) as (st' & Hrun & Hres).
  exists st'. split; [exact Hrun|]. split; [exact Hres|].
  change st' with (snd (Ok tt, st')). rewrite <- Hrun.
  apply crawl_preserves_from with (P := fun u => start_url = u \/ on_site u).
  - intros r href Hin. right. eapply outbound_on_site. exact Hin.
  - intros u d st Hu _ _ Hnew Hst. apply visit_crawl_inv; assumption.
  - left. reflexivity.
  - lia.
  - exists []. simpl. rewrite app_nil_r.
    split; [reflexivity|]. split; [constructor|].
    split; [intros u; rewrite elem_of_empty; tauto|].
    split; [constructor|]. split; [lia|]. split; [reflexivity|].
    split; [reflexivity|constructor].
Qed.

(** X7: in a crawl, every URL announced is requested exactly twice, once
    by the extractor and once by the link collector, one request after the
    other, and nothing else is requested. *)
Theorem crawl_fetches_twice (net : network) (start_url : string)
    (depth max_urls : Z) (p : process) :
  exists res p' evs,
    scrape_all_links_and_content net start_url depth max_urls p = (Ok res, p') /\
    trace p' = (trace p ++ evs)%list /\
    requested evs = flat_map (fun u => [u; u]) (announced evs) /\
    requests p' = (requests p + 2 * List.length (announced evs))%nat.
Proof.
  destruct (scrape_crawl_inv net start_url depth max_urls p)
    as (st' & _ & Hres & evs & Htr & _ & _ & _ & Hreq & Hget & _).
  exists (results st'), (proc st'), evs. auto.
Qed.

(** X8: a crawl announces no URL twice, and at its end the visited set
    holds exactly the URLs announced. *)
Theorem crawl_no_revisit (net : network) (start_url : string)
    (depth max_urls : Z) (p : process) :
  exists st' evs,
    scrape_final net start_url depth max_urls p = (Ok tt, st') /\
    trace (proc st') = (trace p ++ evs)%list /\
    List.NoDup (announced evs) /\
    (forall u, u ∈ visited st' <-> In u (announced evs)) /\
    size (visited st') = List.length (announced evs).
Proof.
  destruct (scrape_crawl_inv net start_url depth max_urls p)
    as (st' & Hrun & _ & evs & Htr & Hnd & Hvis & _).
  exists st', evs. repeat (split; [assumption|]).
  unfold size, set_size. simpl. apply Permutation_length.
  apply NoDup_Permutation.
  - apply NoDup_elements.
  - apply NoDup_ListNoDup. exact Hnd.
  - intros u. rewrite elem_of_elements, Hvis, list_elem_of_In. reflexivity.
Qed.

(** X9: the keys of the dictionary returned, in insertion order, are
    visited URLs in the order of their announcement; in particular every
    key is in the visited set. *)
Theorem scrape_keys_in_visit_order (net : network) (start_url : string)
    (depth max_urls : Z) (p : process) :
  exists st' evs,
    scrape_final net start_url depth max_urls p = (Ok tt, st') /\
    scrape_all_links_and_content net start_url depth max_urls p
    = (Ok (results st'), proc st') /\
    trace (proc st') = (trace p ++ evs)%list /\
    List.map fst (results st') `sublist_of` announced evs /\
    (forall u a, In (u, a) (results st') -> u ∈ visited st').
Proof.
  destruct (scrape_crawl_inv net start_url depth max_urls p)
    as (st' & Hrun & Hres & evs & Htr & _ & Hvis & Hsub & _).
  exists st', evs. repeat (split; [assumption|]).
  intros u a Hin. apply Hvis, list_elem_of_In.
  eapply elem_of_sublist; [|exact Hsub].
  apply list_elem_of_In. apply List.in_map_iff. exists (u, a). auto.
Qed.

(** X10: a crawl requests the seed and, besides it, only URLs made by the
    link collector: the site's origin followed by an href that starts with
    [/wiki/] and passes the classifier. *)
Theorem crawl_stays_on_site (net : network) (start_url : string)
    (depth max_urls : Z) (p : process) :
  exists res p' evs,
    scrape_all_links_and_content net start_url depth max_urls p = (Ok res, p') /\
    trace p' = (trace p ++ evs)%list /\
    forall u, In (Get u) evs -> u = start_url \/ on_site u.
Proof.
  destruct (scrape_crawl_inv net start_url depth max_urls p)
    as (st' & _ & Hres & evs & Htr & _ & _ & _ & _ & Hget & _ & Hall).
  exists (results st'), (proc st'), evs. repeat (split; [assumption|]).
  intros u Hin. apply requested_In in Hin. rewrite Hget in Hin.
  apply in_flat_map in Hin as (u' & Hu' & Hin).
  rewrite List.Forall_forall in Hall.
  assert (u = u') as -> by (destruct Hin as [<-|[<-|[]]]; reflexivity).
  auto.
Qed.

(** X11: a crawl writes no file: the files after
    [scrape_all_links_and_content] are those before it. *)
Theorem scrape_touches_no_file (net : network) (start_url : string)
    (depth max_urls : Z) (p : process) :
  exists res p',
    scrape_all_links_and_content net start_url depth max_urls p = (Ok res, p') /\
    files p' = files p.
Proof.
  destruct (scrape_crawl_inv net start_url depth max_urls p)
    as (st' & _ & Hres & evs & _ & _ & _ & _ & _ & _ & Hfiles & _).
  exists (results st'), (proc st'). auto.
Qed.

(** A loop whose rounds do nothing does nothing. *)
Lemma for_each_skip {S A} (body : A -> M S unit) (l : list A) (s : S) :
  (forall x, body x s = (Ok tt, s)) -> for_each l body s = (Ok tt, s).
Proof.
  intros Hbody. induction l as [|x l IH]; simpl; [reflexivity|].
  unfold bind. rewrite Hbody. exact IH.
Qed.

(** An activation whose links are none, or lie beyond the depth bound,
    ends with its visit. *)
Lemma crawl_single_visit (net : network) (depth max_urls : Z) (fuel : nat)
    (u : string) (d : Z) (st : crawl_state) :
  stops depth max_urls u d st = false ->
  outbound (net (S (requests (proc st))) u) = [] \/ depth < d + 1 ->
  crawl net depth max_urls (S (S fuel)) u d st
  = (Ok tt, snd (visit net u d st)).
Proof.
  intros Hstop Hends. rewrite crawl_unfold, Hstop.
  destruct (visit_detail net u d st) as (v & st1 & evs & -> & _). simpl.
  destruct Hends as [->|Hdeep]; [reflexivity|].
  apply for_each_skip. intros link. unfold follow, bind, get_state.
  destruct (_ && _); [|reflexivity].
  rewrite crawl_unfold. unfold stops.
  replace (d + 1 >? depth) with true; [|symmetry; apply Z.gtb_lt; lia].
  rewrite orb_true_r. reflexivity.
Qed.

(** A crawl that visits the seed alone. *)
Lemma scrape_single_visit (net : network) (start_url : string)
    (depth max_urls : Z) (p : process) :
  0 < max_urls -> 0 <= depth ->
  outbound (net (S (requests p)) start_url) = [] \/ depth = 0 ->
  exists v evs p',
    scrape_all_links_and_content net start_url depth max_urls p
    = (Ok match v with Some a => [(start_url, a)] | None => [] end, p') /\
    (forall a, v = Some a -> a_url a = start_url) /\
    trace p' = (trace p ++ Print (Crawling start_url 0 0) :: evs)%list /\
    requested evs = [start_url; start_url] /\
    announced evs = [] /\
    requests p' = S (S (requests p)).
Proof.
  intros Hmax Hdepth Hends. unfold scrape_all_links_and_content.
  set (st := {| visited := ∅; results := []; proc := p |}).
  assert (Hfuel : exists fuel, crawl_fuel depth = S (S fuel)).
  { unfold crawl_fuel. exists (Nat.pred (Z.to_nat (depth + 1))). lia. }
  destruct Hfuel as [fuel ->].
  rewrite crawl_single_visit.
  - destruct (visit_detail net start_url 0 st)
      as (v & st1 & evs & -> & _ & Hres & Hart & Htr & _ & Hget & Hann & Hreq & _).
    simpl. exists v, evs, (proc st1).
    split; [f_equal; f_equal; rewrite Hres; destruct v; reflexivity|].
    auto.
  - unfold stops. simpl.
    replace (len [] >=? max_urls) with false;
      [|symmetry; unfold len; simpl; rewrite Z.geb_leb; apply Z.leb_gt; lia].
    replace (0 >? depth) with false;
      [|symmetry; rewrite Z.gtb_ltb; apply Z.ltb_ge; lia].
    reflexivity.
  - destruct Hends as [Hnone | ->]; [left; exact Hnone | right; lia].
Qed.

(** X12: with nothing to collect ([max_urls] not positive) or a negative
    [depth], [scrape_all_links_and_content] returns the empty dictionary
    at once: no request, no output. *)
Theorem scrape_zero_budget (net : network) (start_url : string)
    (depth max_urls : Z) (p : process) :
  max_urls <= 0 \/ depth < 0 ->
  scrape_all_links_and_content net start_url depth max_urls p = (Ok [], p).
Proof.
  intros Hzero. unfold scrape_all_links_and_content, crawl_fuel.
  rewrite crawl_unfold. unfold stops. simpl.
  destruct Hzero as [Hmax|Hdepth].
  - replace (len [] >=? max_urls) with true; [reflexivity|].
    symmetry. unfold len. simpl. rewrite Z.geb_leb. apply Z.leb_le. lia.
  - replace (0 >? depth) with true;
      [rewrite orb_true_r; reflexivity|].
    symmetry. apply Z.gtb_lt. lia.
Qed.

Lemma scrape_zero_budget_witness :
  scrape_all_links_and_content
    (Sample.always (Response 200 Sample.music)) "seed" 2 0 start
  = (Ok [], start).
Proof.
  apply (scrape_zero_budget
           (Sample.always (Response 200 Sample.music)) "seed" 2 0 start).
  left. lia.
Defined.

(** X13: with [depth = 0] and a positive [max_urls], the crawl visits the
    seed alone, whatever links its page holds: two requests, both for the
    seed, and a dictionary that is empty or holds the seed's article. *)
Theorem scrape_depth_zero (net : network) (start_url : string)
    (max_urls : Z) (p : process) :
  0 < max_urls ->
  exists v evs p',
    scrape_all_links_and_content net start_url 0 max_urls p
    = (Ok match v with Some a => [(start_url, a)] | None => [] end, p') /\
    (forall a, v = Some a -> a_url a = start_url) /\
    trace p' = (trace p ++ Print (Crawling start_url 0 0) :: evs)%list /\
    requested evs = [start_url; start_url] /\
    announced evs = [] /\
    requests p' = S (S (requests p)).
Proof.
  intros Hmax. apply scrape_single_visit; [exact Hmax | lia | right; reflexivity].
Qed.

Lemma scrape_depth_zero_witness :
  exists v evs p',
    scrape_all_links_and_content
      (Sample.always (Response 200 Sample.music)) "seed" 0 5 start
    = (Ok match v with Some a => [("seed", a)] | None => [] end, p') /\
    (forall a, v = Some a -> a_url a = "seed") /\
    trace p' = (trace start ++ Print (Crawling "seed" 0 0) :: evs)%list /\
    requested evs = ["seed"; "seed"] /\
    announced evs = [] /\
    requests p' = S (S (requests start)).
Proof.
  apply (scrape_depth_zero
           (Sample.always (Response 200 Sample.music)) "seed" 5 start).
  lia.
Defined.

(** X14: when the page fetched for the seed's links offers no href that
    starts with [/wiki/] and passes the classifier (or that fetch fails),
    the crawl visits the seed alone, and the dictionary returned has at
    most one entry, the seed's. *)
Theorem scrape_no_outbound_links (net : network) (start_url : string)
    (depth max_urls : Z) (p : process) :
  0 < max_urls -> 0 <= depth ->
  outbound (net (S (requests p)) start_url) = [] ->
  exists v evs p',
    scrape_all_links_and_content net start_url depth max_urls p
    = (Ok match v with Some a => [(start_url, a)] | None => [] end, p') /\
    (forall a, v = Some a -> a_url a = start_url) /\
    trace p' = (trace p ++ Print (Crawling start_url 0 0) :: evs)%list /\
    requested evs = [start_url; start_url] /\
    announced evs = [] /\
    requests p' = S (S (requests p)).
Proof.
  intros Hmax Hdepth Hnone.
  apply scrape_single_visit; [exact Hmax | exact Hdepth | left; exact Hnone].
Qed.

Lemma scrape_no_outbound_links_witness :
  exists v evs p',
    scrape_all_links_and_content
      (Sample.always (Response 200 Sample.untitled)) "seed" 2 5 start
    = (Ok match v with Some a => [("seed", a)] | None => [] end, p') /\
    (forall a, v = Some a -> a_url a = "seed") /\
    trace p' = (trace start ++ Print (Crawling "seed" 0 0) :: evs)%list /\
    requested evs = ["seed"; "seed"] /\
    announced evs = [] /\
    requests p' = S (S (requests start)).
Proof.
  apply (scrape_no_outbound_links
           (Sample.always (Response 200 Sample.untitled)) "seed" 2 5 start);
    [lia | lia | reflexivity].
Defined.

(* ===================================================================== *)
(** * More on the report writer *)
(* ===================================================================== *)

Lemma set_file_set_file (filename t1 t2 : string) (p : process) :
  set_file filename t2 (set_file filename t1 p) = set_file filename t2 p.
Proof. unfold set_file. simpl. rewrite insert_insert_eq. reflexivity. Qed.

Lemma set_file_same (filename old : string) (p : process) :
  files p !! filename = Some old -> set_file filename old p = p.
Proof.
  intros Hold. destruct p as [r t f]. unfold set_file. simpl in *.
  rewrite insert_id by exact Hold. reflexivity.
Qed.

Lemma appends_eq (filename t t' : string) (c : M process unit) :
  t = t' -> appends filename t c -> appends filename t' c.
Proof. intros <-. auto. Qed.

Lemma appends_file_write (filename text : string) :
  appends filename text (file_write filename text).
Proof. intros p old Hold. unfold file_write. rewrite Hold. reflexivity. Qed.

Lemma appends_ret (filename : string) :
  appends filename EmptyString (ret tt).
Proof.
  intros p old Hold. unfold ret.
  rewrite string_app_nil_r, set_file_same by exact Hold. reflexivity.
Qed.

Lemma appends_seq (filename t1 t2 : string) (c k : M process unit) :
  appends filename t1 c -> appends filename t2 k ->
  appends filename (t1 +:+ t2) (c ;;; k).
Proof.
  intros Hc Hk p old Hold. unfold bind. rewrite (Hc p old Hold).
  rewrite (Hk _ (old +:+ t1)).
  - rewrite set_file_set_file, string_app_assoc. reflexivity.
  - simpl. apply lookup_insert_eq.
Qed.

Lemma appends_for_each {A} (filename : string) (text : A -> string)
    (body : A -> M process unit) (l : list A) :
  (forall x, appends filename (text x) (body x)) ->
  appends filename (PyStr.concat (List.map text l)) (for_each l body).
Proof.
  intros Hbody. induction l as [|x l IH]; simpl.
  - apply appends_ret.
  - apply appends_seq; [apply Hbody | exact IH].
Qed.

Lemma appends_write_article (filename : string) (entry : string * article) :
  appends filename (render_article entry) (write_article filename entry).
Proof.
  destruct entry as [url article]. unfold write_article, render_article.
  eapply appends_eq;
    [|repeat (apply appends_seq; [apply appends_file_write|]);
      apply appends_seq; [|apply appends_file_write];
      apply appends_for_each with (text := render_section);
      intros section; unfold render_section;
      eapply appends_eq;
        [|apply appends_seq; [apply appends_file_write|];
          apply appends_seq; [|apply appends_file_write];
          apply appends_for_each
            with (text := fun paragraph => "    " +:+ paragraph +:+ nl);
          intros paragraph; apply appends_file_write];
      rewrite !string_app_assoc; reflexivity].
  simpl. rewrite !string_app_assoc. reflexivity.
Qed.

(** The run of the writer when the file system lets it through. *)
Lemma save_results_run (fs : filesystem) (data : list (string * article))
    (filename : string) (p : process) :
  OsPath.dirname filename = EmptyString
  \/ fs (MakeDirs (OsPath.dirname filename)) = true ->
  fs (OpenWrite filename) = true ->
  save_results_to_txt fs data filename p
  = (Ok PyNone,
     {| requests := requests p;
        trace := (trace p ++ [Print (Saved (len data) filename)])%list;
        files := <[filename := render data]> (files p) |}).
Proof.
  intros Hdir Hopen. unfold save_results_to_txt.
  assert (Hfirst :
            (if PyStr.truthy (OsPath.dirname filename)
             then makedirs fs (OsPath.dirname filename) else ret tt) p
            = (Ok tt, p)).
  { destruct Hdir as [->|Hmk]; [reflexivity|].
    destruct (PyStr.truthy _); [|reflexivity].
    unfold makedirs. rewrite Hmk. reflexivity. }
  unfold bind at 1. rewrite Hfirst.
  unfold bind at 1. unfold open_w. rewrite Hopen.
  unfold bind at 1.
  rewrite (appends_for_each filename render_article (write_article filename)
             data (appends_write_article filename)
             (set_file filename EmptyString p) EmptyString)
    by apply lookup_insert_eq.
  rewrite set_file_set_file. reflexivity.
Qed.

(** X15: when the directory can be made and the file opened, the file
    holds, after [save_results_to_txt], one block for each entry of the
    mapping in its order (URL line, title line, content marker, then each
    section's heading and paragraphs, and the line of fifty [=] signs),
    whatever it held before; no other file changes and no request is
    made. *)
Theorem save_results_file_content (fs : filesystem)
    (data : list (string * article)) (filename : string) (p : process) :
  OsPath.dirname filename = EmptyString
  \/ fs (MakeDirs (OsPath.dirname filename)) = true ->
  fs (OpenWrite filename) = true ->
  exists p',
    save_results_to_txt fs data filename p = (Ok PyNone, p') /\
    files p' !! filename = Some (render data) /\
    (forall other, other <> filename -> files p' !! other = files p !! other) /\
    requests p' = requests p.
Proof.
  intros Hdir Hopen. rewrite (save_results_run fs data filename p Hdir Hopen).
  eexists. split; [reflexivity|]. simpl.
  split; [apply lookup_insert_eq|]. split; [|reflexivity].
  intros other Hother. apply lookup_insert_ne. congruence.
Qed.

Lemma save_results_file_content_witness :
  exists p',
    save_results_to_txt Sample.fs_ok Sample.one_article "out/report.txt" start
    = (Ok PyNone, p') /\
    files p' !! "out/report.txt" = Some (render Sample.one_article) /\
    (forall other, other <> "out/report.txt" ->
                   files p' !! other = files start !! other) /\
    requests p' = requests start.
Proof.
  apply (save_results_file_content
           Sample.fs_ok Sample.one_article "out/report.txt" start).
  - right. reflexivity.
  - reflexivity.
Defined.

(** The run of the writer when the file system stops it. *)
Lemma save_results_stopped (fs : filesystem)
    (data : list (string * article)) (filename : string) (p : process) :
  (OsPath.dirname filename <> EmptyString /\
   fs (MakeDirs (OsPath.dirname filename)) = false)
  \/ fs (OpenWrite filename) = false ->
  save_results_to_txt fs data filename p = (Raise OSError, p).
Proof.
  intros Hfail. unfold save_results_to_txt, bind, makedirs, open_w, ret.
  destruct Hfail as [[Hdir Hmk]|Hopen].
  - apply truthy_true in Hdir. rewrite Hdir, Hmk. reflexivity.
  - destruct (PyStr.truthy _); [destruct (fs (MakeDirs _))|];
      rewrite ?Hopen; reflexivity.
Qed.

(** X16: when the directory cannot be made, or the file cannot be opened,
    [save_results_to_txt] raises [OSError] to its caller: nothing is
    written and nothing is printed. *)
Theorem save_results_fs_failure (fs : filesystem)
    (data : list (string * article)) (filename : string) (p : process) :
  (OsPath.dirname filename <> EmptyString /\
   fs (MakeDirs (OsPath.dirname filename)) = false)
  \/ fs (OpenWrite filename) = false ->
  fst (save_results_to_txt fs data filename p) = Raise OSError /\
  trace (snd (save_results_to_txt fs data filename p)) = trace p /\
  files (snd (save_results_to_txt fs data filename p)) = files p.
Proof.
  intros Hfail. rewrite (save_results_stopped fs data filename p Hfail).
  repeat split.
Qed.

Lemma save_results_fs_failure_witness :
  fst (save_results_to_txt Fixture.fs_closed Sample.one_article
         "out/report.txt" start) = Raise OSError /\
  trace (snd (save_results_to_txt Fixture.fs_closed Sample.one_article
                "out/report.txt" start)) = trace start /\
  files (snd (save_results_to_txt Fixture.fs_closed Sample.one_article
                "out/report.txt" start)) = files start.
Proof.
  apply (save_results_fs_failure
           Fixture.fs_closed Sample.one_article "out/report.txt" start).
  right. reflexivity.
Defined.

Lemma upto_last_slash_none (s : string) :
  has_slash s = false -> OsPath.upto_last_slash s = EmptyString.
Proof.
  induction s as [|c s IH]; simpl; [reflexivity|].
  intros H. apply orb_false_iff in H as [Hc Hs].
  rewrite (IH Hs), Hc. reflexivity.
Qed.

(** X17: for a file name without a slash there is no directory to make:
    [save_results_to_txt] does not call [os.makedirs], and goes through as
    soon as the file can be opened. *)
Theorem save_results_bare_filename (fs : filesystem)
    (data : list (string * article)) (filename : string) (p : process) :
  has_slash filename = false ->
  fs (OpenWrite filename) = true ->
  OsPath.dirname filename = EmptyString /\
  exists p',
    save_results_to_txt fs data filename p = (Ok PyNone, p') /\
    files p' !! filename = Some (render data).
Proof.
  intros Hbare Hopen.
  assert (Hdir : OsPath.dirname filename = EmptyString).
  { unfold OsPath.dirname. rewrite (upto_last_slash_none _ Hbare). reflexivity. }
  split; [exact Hdir|].
  rewrite (save_results_run fs data filename p (or_introl Hdir) Hopen).
  eexists. split; [reflexivity|]. simpl. apply lookup_insert_eq.
Qed.

Lemma save_results_bare_filename_witness :
  OsPath.dirname default_filename = EmptyString /\
  exists p',
    save_results_to_txt
      (fun op => match op with MakeDirs _ => false | OpenWrite _ => true end)
      Sample.one_article default_filename start = (Ok PyNone, p') /\
    files p' !! default_filename = Some (render Sample.one_article).
Proof.
  apply (save_results_bare_filename
           (fun op => match op with MakeDirs _ => false | OpenWrite _ => true end)
           Sample.one_article default_filename start);
    reflexivity.
Defined.

(* ===================================================================== *)
(** * The entry point *)
(* ===================================================================== *)

(** The crawl of [main]: at most five articles, and no file touched. *)
Lemma main_scrape (net : network) (p : process) :
  exists res p1,
    scrape_all_links_and_content net start_url 2 5 p = (Ok res, p1) /\
    len res <= 5 /\
    files p1 = files p.
Proof.
  destruct (scrape_crawl_inv net start_url 2 5 p)
    as (st' & Hrun & Hres & evs & _ & _ & _ & _ & _ & _ & Hfiles & _).
  exists (results st'), (proc st'). split; [exact Hres|]. split; [|exact Hfiles].
  assert (Hinv : within_bound 5 st').
  { unfold scrape_final in Hrun.
    change st' with (snd (Ok tt, st')). rewrite <- Hrun.
    apply crawl_preserves.
    - intros u d st _ Hlen _. apply visit_within_bound. exact Hlen.
    - lia.
    - split; simpl; [unfold len; simpl; lia | constructor]. }
  destruct Hinv as [Hlen _]. exact Hlen.
Qed.

(** X18: when the report file can be opened, [main] returns without an
    exception, whatever the network does: it crawls from the seed with
    depth 2, keeps at most five articles, writes them to
    [wikipedia_content.txt] and prints their number last. *)
Theorem main_writes_report (net : network) (fs : filesystem) (p : process) :
  fs (OpenWrite default_filename) = true ->
  exists res p1 p',
    scrape_all_links_and_content net start_url 2 5 p = (Ok res, p1) /\
    len res <= 5 /\
    main net fs p = (Ok tt, p') /\
    files p' = <[default_filename := render res]> (files p) /\
    trace p' = (trace p1 ++ [Print (Saved (len res) default_filename)])%list.
Proof.
  intros Hopen.
  destruct (main_scrape net p) as (res & p1 & Hscrape & Hlen & Hfiles).
  exists res, p1. eexists. split; [exact Hscrape|]. split; [exact Hlen|].
  unfold main. unfold bind at 1. rewrite Hscrape.
  unfold bind at 1.
  rewrite (save_results_run fs res default_filename p1 (or_introl eq_refl) Hopen).
  split; [reflexivity|]. simpl. rewrite Hfiles. split; reflexivity.
Qed.

Lemma main_writes_report_witness :
  exists res p1 p',
    scrape_all_links_and_content (Sample.always Timeout) start_url 2 5 start
    = (Ok res, p1) /\
    len res <= 5 /\
    main (Sample.always Timeout) Sample.fs_ok start = (Ok tt, p') /\
    files p' = <[default_filename := render res]> (files start) /\
    trace p' = (trace p1 ++ [Print (Saved (len res) default_filename)])%list.
Proof.
  apply (main_writes_report (Sample.always Timeout) Sample.fs_ok start).
  reflexivity.
Defined.

(** X19: when the report file cannot be opened, [main] ends with
    [OSError], after the crawl: no file is written, and what was crawled
    is lost. *)
Theorem main_open_failure (net : network) (fs : filesystem) (p : process) :
  fs (OpenWrite default_filename) = false ->
  exists res p1,
    scrape_all_links_and_content net start_url 2 5 p = (Ok res, p1) /\
    main net fs p = (Raise OSError, p1) /\
    files p1 = files p.
Proof.
  intros Hopen.
  destruct (main_scrape net p) as (res & p1 & Hscrape & _ & Hfiles).
  exists res, p1. split; [exact Hscrape|]. split; [|exact Hfiles].
  unfold main. unfold bind at 1. rewrite Hscrape.
  unfold bind at 1.
  rewrite (save_results_stopped fs res default_filename p1 (or_intror Hopen)).
  reflexivity.
Qed.

Lemma main_open_failure_witness :
  exists res p1,
    scrape_all_links_and_content (Sample.always Timeout) start_url 2 5 start
    = (Ok res, p1) /\
    main (Sample.always Timeout) Fixture.fs_closed start = (Raise OSError, p1) /\
    files p1 = files start.
Proof.
  apply (main_open_failure (Sample.always Timeout) Fixture.fs_closed start).
  reflexivity.
Defined.

(* ===================================================================== *)
(** * The classifier on absolute URLs, and the articles of a crawl *)
(* ===================================================================== *)

(** X20: the classifier answers on the absolute URL that the link
    collector builds as it does on the raw href: the origin put in front
    brings in no pattern. *)
Theorem is_valid_article_absolute (href : string) :
  is_valid_article (base_origin +:+ href) = is_valid_article href.
Proof.
  unfold is_valid_article, exclude_patterns, is_valid_article_loop.
  assert (Hpat : forall pat,
             In pat exclude_patterns ->
             PyStr.re_search pat (base_origin +:+ href) = PyStr.re_search pat href).
  { intros pat Hin. simpl in Hin.
    repeat (destruct Hin as [<-|Hin]; [reflexivity|]). destruct Hin. }
  rewrite !Hpat by (simpl; tauto). reflexivity.
Qed.

(** The dictionary after a visit: the article, if the extractor returned
    one, is stored under the URL visited. *)
Lemma visit_results (net : network) (u : string) (d : Z) (st : crawl_state) :
  results (snd (visit net u d st))
  = match fst (extract_article_content net u
                 (snd (print (Crawling u d (len (results st))) (proc st)))) with
    | Ok (Some a) => dict_set u a (results st)
    | _ => results st
    end.
Proof.
  unfold visit, bind, get_state, visited_add, io, print, emit, ret. simpl.
  destruct (extract_article_content net u _) as [[[a|]|e] p1]; simpl;
    try reflexivity;
    unfold results_set; simpl;
    destruct (get_all_links net u p1) as [[links|e] p2]; reflexivity.
Qed.

Lemma visit_extracted (net : network) (u : string) (d : Z) (st : crawl_state) :
  extracted net st -> extracted net (snd (visit net u d st)).
Proof.
  intros Hst u' a'. rewrite visit_results.
  destruct (fst (extract_article_content net u _)) as [[a|]|e] eqn:E;
    try apply Hst.
  intros Hin. apply dict_set_In in Hin as [[= -> ->]|Hin]; [|apply Hst, Hin].
  eexists. exact E.
Qed.

(** X21: every article of the dictionary that
    [scrape_all_links_and_content] returns is one that
    [extract_article_content] returned for its key; so it has at least one
    section, and none of its sections is empty. *)
Theorem scrape_articles_extracted (net : network) (start_url : string)
    (depth max_urls : Z) (p : process) :
  exists res p',
    scrape_all_links_and_content net start_url depth max_urls p = (Ok res, p') /\
    forall u a,
      In (u, a) res ->
      (exists q, fst (extract_article_content net u q) = Ok (Some a)) /\
      a_content a <> [] /\
      Forall (fun s => content s <> []) (a_content a).
Proof.
  destruct (scrape_returns net depth max_urls start_url p) as (st' & Hrun & ->).
  exists (results st'), (proc st'). split; [reflexivity|].
  assert (Hinv : extracted net st').
  { change st' with (snd (Ok tt, st')). rewrite <- Hrun.
    apply crawl_preserves.
    - intros u d st _ _ _. apply visit_extracted.
    - lia.
    - intros u a []. }
  intros u a Hin. destruct (Hinv u a Hin) as [q Hq].
  split; [exists q; exact Hq|].
  destruct (extract_article_content_cases net u q)
    as (v & p' & Heq & _ & _ & _ & Hart).
  rewrite Heq in Hq. simpl in Hq. injection Hq as ->.
  destruct (Hart a eq_refl) as (_ & Hne & Hall). split; assumption.
Qed.

Lemma visit_below_quota (net : network) (max_urls : Z) (t0 : list event)
    (u : string) (d : Z) (st : crawl_state) :
  len (results st) < max_urls ->
  below_quota max_urls t0 st -> below_quota max_urls t0 (snd (visit net u d st)).
Proof.
  intros Hlen (evs & Htr & Hall).
  destruct (visit_detail net u d st)
    as (v & st' & evs1 & -> & _ & _ & _ & Htr1 & Hq & _).
  simpl. exists (evs ++ Print (Crawling u d (len (results st))) :: evs1)%list.
  split; [rewrite Htr1, Htr, <- app_assoc; reflexivity|].
  intros u' d' n' Hin. apply in_app_or in Hin as [Hin|[Hin|Hin]].
  - eapply Hall. exact Hin.
  - injection Hin as <- <- <-. unfold len in *. lia.
  - exfalso. unfold quiet in Hq. rewrite forallb_forall in Hq.
    specialize (Hq _ Hin). discriminate.
Qed.

(** X22: no URL is visited once the dictionary is full: the count of
    results that each [Crawling] line shows is below [max_urls]. *)
Theorem crawl_stops_at_quota (net : network) (start_url : string)
    (depth max_urls : Z) (p : process) :
  exists res p' evs,
    scrape_all_links_and_content net start_url depth max_urls p = (Ok res, p') /\
    trace p' = (trace p ++ evs)%list /\
    forall u d n, In (Print (Crawling u d n)) evs -> 0 <= n < max_urls.
Proof.
  destruct (scrape_returns net depth max_urls start_url p) as (st' & Hrun & ->).
  assert (Hinv : below_quota max_urls (trace p) st').
  { change st' with (snd (Ok tt, st')). rewrite <- Hrun.
    apply crawl_preserves.
    - intros u d st _ Hlen _. apply visit_below_quota. exact Hlen.
    - lia.
    - exists []. simpl. rewrite app_nil_r. split; [reflexivity|].
      intros u d n []. }
  destruct Hinv as (evs & Htr & Hall).
  exists (results st'), (proc st'), evs. auto.
Qed.
